(** * Content analyzer: fetch / extract / analyse / batch pipeline

    A shallow embedding of [src/content_processor.py], [src/main.py] and
    the parts of [src/config.py] they use, followed by the properties
    established about them.

    Conventions of the embedding.
    - A Python [str] is a Rocq [string]; a character is read as the code
      point of the same number, so the texts covered are those whose code
      points lie below 256.
    - A Python [int] is a [Z]; [len] is [Z.of_nat] of the length.
    - A Python [float] obtained by true division of two integers is the
      exact rational quotient, in [Q].
    - A call that may raise returns a [result]; code with observable
      effects (calls to collaborators, sleeps, log lines) runs in the
      trace monad [M]. *)

From Stdlib Require Import ZArith List String Ascii Bool Lia QArith.
Import ListNotations.

Set Implicit Arguments.

Close Scope Q_scope.
Local Open Scope string_scope.
Local Open Scope list_scope.

(** ** Exceptions and traces *)

Inductive result (A : Type) : Type :=
| Ret (a : A)
| Raise (exn : string).

Arguments Ret {A} a.
Arguments Raise {A} exn.

Definition is_exception {A} (r : result A) : bool :=
  match r with
  | Ret _ => false
  | Raise _ => true
  end.

(** A computation that appends events of type [E] to a trace and then
    returns or raises. *)
Definition M (E A : Type) : Type := (list E * result A)%type.

Definition ret {E A} (a : A) : M E A := ([], Ret a).

Definition raise {E A} (exn : string) : M E A := ([], Raise exn).

Definition tell {E} (e : E) : M E unit := ([e], Ret tt).

Definition bind {E A B} (m : M E A) (k : A -> M E B) : M E B :=
  match m with
  | (t, Ret a) => let (t', r) := k a in (t ++ t', r)
  | (t, Raise exn) => (t, Raise exn)
  end.

(** [try: m except Exception as e: h(str(e))] *)
Definition try_except {E A} (m : M E A) (h : string -> M E A) : M E A :=
  match m with
  | (t, Ret a) => (t, Ret a)
  | (t, Raise exn) => let (t', r) := h exn in (t ++ t', r)
  end.

Definition lift {E A} (r : result A) : M E A := ([], r).

Definition trace_of {E A} (m : M E A) : list E := fst m.
Definition value_of {E A} (m : M E A) : result A := snd m.

Declare Scope py_scope.
Delimit Scope py_scope with py.
Notation "x <- m ;; k" := (bind m (fun x => k))
  (at level 61, m at next level, right associativity) : py_scope.
Notation "m ;;; k" := (bind m (fun _ => k))
  (at level 61, right associativity) : py_scope.

(** ** Python built-ins used by the program *)

Module Py.

Definition len_str (s : string) : Z := Z.of_nat (String.length s).
Definition len {A} (l : list A) : Z := Z.of_nat (List.length l).

(** [str.isspace] on the code points below 256: TAB..CR, FS..US,
    SPACE, NEL and NBSP. *)
Definition is_space (c : ascii) : bool :=
  let n := nat_of_ascii c in
  (((9 <=? n) && (n <=? 13)) || ((28 <=? n) && (n <=? 32))
   || (n =? 133) || (n =? 160))%nat.

(** [str.lower] on the code points below 256: A-Z and the Latin-1
    capitals (except the multiplication sign) move up by 32. *)
Definition lower_char (c : ascii) : ascii :=
  let n := nat_of_ascii c in
  if (((65 <=? n) && (n <=? 90))
      || ((192 <=? n) && (n <=? 222) && negb (n =? 215)))%nat
  then ascii_of_nat (n + 32)
  else c.

Fixpoint lower (s : string) : string :=
  match s with
  | EmptyString => EmptyString
  | String c r => String (lower_char c) (lower r)
  end.

(** [s.split()]: the maximal runs of non-whitespace characters.
    [cur] is the run being read. *)
Fixpoint split_ws_from (cur : string) (s : string) : list string :=
  match s with
  | EmptyString =>
      match cur with
      | EmptyString => []
      | _ => [cur]
      end
  | String c r =>
      if is_space c then
        match cur with
        | EmptyString => split_ws_from "" r
        | _ => cur :: split_ws_from "" r
        end
      else split_ws_from (cur ++ String c "") r
  end.

Definition split_ws (s : string) : list string := split_ws_from "" s.

(** [s.split(sep)] for a non-empty [sep]: cut at every occurrence of
    [sep], scanning left to right without overlap.  [skip] counts the
    characters of the separator still to be passed over. *)
Fixpoint split_from (sep : string) (skip : nat) (cur : string)
         (s : string) : list string :=
  match s with
  | EmptyString => [cur]
  | String c r =>
      match skip with
      | S k => split_from sep k cur r
      | O =>
          if String.prefix sep s
          then cur :: split_from sep (String.length sep - 1) "" r
          else split_from sep 0 (cur ++ String c "") r
      end
  end.

Definition split (sep : string) (s : string) : list string :=
  split_from sep 0 "" s.

Definition startswith (s p : string) : bool := String.prefix p s.

Fixpoint lstrip (s : string) : string :=
  match s with
  | EmptyString => EmptyString
  | String c r => if is_space c then lstrip r else s
  end.

(** Characters are dropped from the right while what follows them is
    only whitespace. *)
Fixpoint rstrip (s : string) : string :=
  match s with
  | EmptyString => EmptyString
  | String c r =>
      match rstrip r with
      | EmptyString => if is_space c then EmptyString else String c ""
      | r' => String c r'
      end
  end.

Definition strip (s : string) : string := rstrip (lstrip s).

(** Truth value of a [str]. *)
Definition truthy (s : string) : bool :=
  match s with
  | EmptyString => false
  | _ => true
  end.

(** Truth value of an [Optional[str]]. *)
Definition truthy_opt (o : option string) : bool :=
  match o with
  | None => false
  | Some s => truthy s
  end.

(** [x in words] for a list of strings. *)
Definition mem (x : string) (words : list string) : bool :=
  existsb (String.eqb x) words.

(** [a / b] on integers. *)
Definition truediv (a b : Z) : result Q :=
  if (b =? 0)%Z then Raise "ZeroDivisionError"
  else Ret (inject_Z a / inject_Z b)%Q.

(** Number of elements of [range(start, stop, step)], as CPython
    computes it. *)
Definition range_len (start stop step : Z) : Z :=
  if (0 <? step)%Z then
    if (start <? stop)%Z then 1 + (stop - 1 - start) / step else 0
  else
    if (stop <? start)%Z then 1 + (start - 1 - stop) / (- step) else 0.

(** [range(start, stop, step)]; a zero step raises [ValueError]. *)
Definition range (start stop step : Z) : result (list Z) :=
  if (step =? 0)%Z then Raise "ValueError"
  else Ret (List.map (fun k => start + Z.of_nat k * step)%Z
                     (List.seq 0 (Z.to_nat (range_len start stop step)))).

(** Bound of a slice: a negative index counts from the end, and the
    outcome is clamped to [0, n]. *)
Definition clamp_index (n i : Z) : Z :=
  let j := if (i <? 0)%Z then (i + n)%Z else i in
  Z.max 0 (Z.min n j).

(** [l[lo:hi]] *)
Definition slice {A} (l : list A) (lo hi : Z) : list A :=
  let n := len l in
  let a := clamp_index n lo in
  let b := clamp_index n hi in
  List.firstn (Z.to_nat (b - a)) (List.skipn (Z.to_nat a) l).

End Py.

(** ** The parsed document (the part of BeautifulSoup the program uses)

    The tree that [BeautifulSoup(content, 'html.parser')] builds: tags with
    a name, attributes and contents, text strings, and comments (which
    carry no text).  The soup object itself is the root tag
    ["[document]"].  Only the parser, from markup to tree, is left
    abstract. *)

Module Bs4.

#[warnings="-register-all"]
Inductive node : Type :=
| Tag (name : string) (attrs : list (string * string))
      (contents : list node)
| NavigableString (s : string)
| Comment (s : string).

Definition BeautifulSoup (contents : list node) : node :=
  Tag "[document]" [] contents.

(** [tag.descendants]: every node below the tag, in document order. *)
Fixpoint descendants (n : node) : list node :=
  match n with
  | Tag _ _ cs => List.flat_map (fun c => c :: descendants c) cs
  | _ => []
  end.

Definition name_in (names : list string) (n : node) : bool :=
  match n with
  | Tag t _ _ => Py.mem t names
  | _ => false
  end.

Fixpoint lookup (k : string) (attrs : list (string * string))
  : option string :=
  match attrs with
  | [] => None
  | (k', v) :: r => if String.eqb k k' then Some v else lookup k r
  end.

(** [tag.get(k)] *)
Definition get (k : string) (n : node) : option string :=
  match n with
  | Tag _ a _ => lookup k a
  | _ => None
  end.

(** [tag.find_all(...)] with the match given as a predicate. *)
Definition find_all (p : node -> bool) (n : node) : list node :=
  List.filter p (descendants n).

(** [tag.find(...)]: the first match, or [None]. *)
Definition find (p : node -> bool) (n : node) : option node :=
  List.hd_error (find_all p n).

(** The text strings below a tag, in document order. *)
Definition strings (n : node) : list string :=
  List.flat_map
    (fun d => match d with NavigableString s => [s] | _ => [] end)
    (descendants n).

(** [tag.text] *)
Definition text (n : node) : string := String.concat "" (strings n).

(** [tag.get_text(separator=sep, strip=True)]: each string is
    stripped, the empty ones are skipped. *)
Definition get_text_strip (sep : string) (n : node) : string :=
  String.concat sep
    (List.filter Py.truthy (List.map Py.strip (strings n))).

(** The value of [class] is a whitespace-separated list. *)
Definition has_class (c : string) (n : node) : bool :=
  match get "class" n with
  | Some v => Py.mem c (Py.split_ws v)
  | None => false
  end.

(** [tag.select('.c1, .c2, ...')] *)
Definition select_classes (cs : list string) (n : node) : list node :=
  find_all (fun d => List.existsb (fun c => has_class c d) cs) n.

(** The tree after [elem.decompose()] for every [elem] in
    [tag(names)]: the subtrees rooted at a tag named in [names] are
    gone. *)
Fixpoint decompose_all (names : list string) (n : node) : node :=
  match n with
  | Tag t a cs =>
      Tag t a
        ((fix go (l : list node) : list node :=
            match l with
            | [] => []
            | c :: r =>
                if name_in names c then go r
                else decompose_all names c :: go r
            end) cs)
  | _ => n
  end.

End Bs4.

(** ** config.py *)

Module AppConfig.

(** What the process reads from outside: environment variables and
    the wall clock. *)
Record Environ : Type := {
  getenv : string -> option string;
  now_isoformat : string
}.

(** The [get_api_key] in force (the later definition of the class). *)
Definition get_api_key (env : Environ) : result string :=
  match getenv env "CONTENT_ANALYZER_API_KEY" with
  | Some k =>
      if Py.truthy k then Ret k
      else Raise "API key not found. Please set CONTENT_ANALYZER_API_KEY in your .env file"
  | None =>
      Raise "API key not found. Please set CONTENT_ANALYZER_API_KEY in your .env file"
  end.

(** The first [get_delay] of the class (lines 64-70), later shadowed:
    a delay drawn between 80% and 120% of [DELAY].  [uniform] is
    [random.uniform]. *)
Definition get_delay_jittered (uniform : Q -> Q -> Q) (DELAY : Q) : Q :=
  let min_delay := (DELAY * (8 # 10))%Q in
  let max_delay := (DELAY * (12 # 10))%Q in
  uniform min_delay max_delay.

(** [is_api_key_valid] (lines 96-100): [bool] of the key that
    [get_api_key] hands back. *)
Definition is_api_key_valid (env : Environ) : result bool :=
  match get_api_key env with
  | Raise e => Raise e
  | Ret api_key => Ret (Py.truthy api_key)
  end.

End AppConfig.

(** ** The browser session, as seen by [fetch_content]

    One [Page] stands for everything the Playwright session of one fetch
    answers: whether the launch and the navigation go through, what each
    selector wait yields in each attempt, and whether the final title
    read and the teardown go through. *)

Module Browser.

(** [page.wait_for_selector(selector, state='visible')] followed by
    [element.text_content()]: either one of the two raises, or the text
    of the element comes back.  The text of an element is always a
    string, possibly empty. *)
Inductive response : Type :=
| Missing
| Visible (text : string).

Record Page : Type := {
  launch_ok : bool;
  goto_ok : bool;
  wait_for_selector : nat -> string -> response;
  title_ok : bool;
  close_ok : bool
}.

End Browser.

(** ** content_processor.py: class ContentProcessor *)

Module ContentProcessor.

Import Browser.
Local Open Scope py_scope.

(** Log lines and sleeps of the extraction loop. *)
Inductive fetch_event : Type :=
| Attempt (number : Z)
| Trying (selector : string)
| Found (selector : string) (length : Z)
| NotFound (selector : string)
| RetrySleep.

Definition max_retries : nat := 3.

Definition selectors : list string :=
  [ ".article-body"; ".article-content"; ".content-section";
    ".main-content"; "#main-content"; "article"; "body" ].

(** [for selector in selectors: try: ... break / except: continue]
    (lines 77-90).  [content] keeps its value when no selector answers. *)
Fixpoint try_selectors (q : string -> response) (sels : list string)
         (content : option string) : M fetch_event (option string) :=
  match sels with
  | [] => ret content
  | selector :: rest =>
      tell (Trying selector) ;;;
      match q selector with
      | Visible t =>
          tell (Found selector (Py.len_str t)) ;;;
          ret (Some t)
      | Missing =>
          tell (NotFound selector) ;;;
          try_selectors q rest content
      end
  end.

(** [content and len(content) > 100] (line 92) *)
Definition significant (content : option string) : bool :=
  match content with
  | Some c => Py.truthy c && (100 <? Py.len_str c)%Z
  | None => false
  end.

(** [for attempt in range(max_retries)] (lines 62-105), over the attempt
    numbers still to run.  The statements of an attempt outside the
    selector sweep are log calls and a sleep, which do not raise, so the
    handler of lines 99-105 is never entered and is left out. *)
Fixpoint attempts (page : Page) (todo : list nat)
         (content : option string) : M fetch_event (option string) :=
  match todo with
  | [] => ret content
  | attempt :: rest =>
      tell (Attempt (Z.of_nat attempt + 1)) ;;;
      content <- try_selectors (wait_for_selector page attempt)
                               selectors content ;;
      if significant content then ret content
      else tell RetrySleep ;;; attempts page rest content
  end.

(** [fetch_content] (lines 24-141).  [None] is returned from the two
    handlers: when the launch fails, when the navigation fails, when
    [len(content)] is applied to [None] after the loop (line 107), when
    the title read fails, and when the teardown in [finally] raises. *)
Definition fetch_content (page : Page) : M fetch_event (option string) :=
  if negb (launch_ok page) then ret None
  else if negb (goto_ok page) then ret None
  else
    content <- attempts page (List.seq 0 max_retries) None ;;
    match content with
    | None => ret None
    | Some c =>
        if negb (title_ok page) then ret None
        else if negb (close_ok page) then ret None
        else ret (Some c)
    end.

(** *** Metadata *)

Record Metadata : Type := {
  title : string;
  description : string;
  breadcrumbs : list string;
  url : string;
  timestamp : string
}.

Definition _extract_title (soup : Bs4.node) : string :=
  match Bs4.find (Bs4.name_in ["title"]) soup with
  | Some title => Py.strip (Bs4.text title)
  | None => ""
  end.

Definition _extract_description (soup : Bs4.node) : string :=
  match Bs4.find
          (fun n => Bs4.name_in ["meta"] n
                    && match Bs4.get "name" n with
                       | Some v => String.eqb v "description"
                       | None => false
                       end) soup with
  | Some meta_desc =>
      match Bs4.get "content" meta_desc with
      | Some c => Py.strip c
      | None => ""
      end
  | None => ""
  end.

Definition _extract_breadcrumbs (soup : Bs4.node) : list string :=
  List.flat_map
    (fun element =>
       List.flat_map
         (fun link =>
            let text := Py.strip (Bs4.text link) in
            if Py.truthy text then [text] else [])
         (Bs4.find_all (Bs4.name_in ["a"]) element))
    (Bs4.select_classes ["breadcrumb"; "nav-breadcrumb"] soup).

Definition _get_current_timestamp (env : AppConfig.Environ) : string :=
  AppConfig.now_isoformat env.

(** *** Analysis *)

Record Analysis : Type := {
  word_count : Z;
  section_count : Z;
  image_count : Z;
  links : list string;
  readability_score : Q;
  sentiment : string;
  complexity_score : Z;
  structure_score : Q
}.

Record BasicAnalysis : Type := {
  basic_readability_score : Q;
  basic_sentiment : string;
  basic_complexity_score : Z;
  basic_structure_score : Q
}.

Definition _calculate_readability (text : string) : result Q :=
  let words := Py.split_ws text in
  let sentences := Py.split "." text in
  if (1 <? Py.len sentences)%Z
  then Py.truediv (Py.len words) (Py.len sentences)
  else Ret 0%Q.

(** [sum(1 for word in tokens if word in lexicon)] *)
Definition count_in (lexicon : list string) (tokens : list string) : Z :=
  Py.len (List.filter (fun word => Py.mem word lexicon) tokens).

Definition positive_words : list string :=
  ["good"; "great"; "excellent"; "best"; "amazing"].

Definition negative_words : list string :=
  ["bad"; "poor"; "terrible"; "worst"; "awful"].

Definition _get_basic_sentiment (text : string) : string :=
  let positive_count :=
    count_in positive_words (Py.split_ws (Py.lower text)) in
  let negative_count :=
    count_in negative_words (Py.split_ws (Py.lower text)) in
  if (negative_count <? positive_count)%Z then "positive"
  else if (positive_count <? negative_count)%Z then "negative"
  else "neutral".

Definition complex_words : list string :=
  ["implementation"; "configuration"; "optimization"; "automation";
   "integration"].

Definition _count_complex_words (text : string) : Z :=
  count_in complex_words (Py.split_ws (Py.lower text)).

(** The newline character. *)
Definition nl : string := String (ascii_of_nat 10) "".

Definition _analyze_structure (text : string) : result Q :=
  let paragraphs := Py.split (nl ++ nl) text in
  if (0 <? Py.len (Py.split "." text))%Z
  then Py.truediv (Py.len paragraphs) (Py.len (Py.split "." text))
  else Ret 0%Q.

Definition _get_basic_analysis (text : string) : result BasicAnalysis :=
  match _calculate_readability text with
  | Raise e => Raise e
  | Ret readability =>
      match _analyze_structure text with
      | Raise e => Raise e
      | Ret structure =>
          Ret {| basic_readability_score := readability;
                 basic_sentiment := _get_basic_sentiment text;
                 basic_complexity_score := _count_complex_words text;
                 basic_structure_score := structure |}
      end
  end.

(** [_get_api_analysis] (lines 396-410): every path ends in the basic
    analysis, the handler included. *)
Definition _get_api_analysis (env : AppConfig.Environ) (text : string)
  : result BasicAnalysis :=
  let body :=
    match AppConfig.get_api_key env with
    | Raise e => Raise e
    | Ret api_key =>
        if negb (Py.truthy api_key) then _get_basic_analysis text
        else _get_basic_analysis text
    end in
  match body with
  | Ret r => Ret r
  | Raise _ => _get_basic_analysis text
  end.

(** [_extract_text] removes the unwanted subtrees from the soup it is
    given, so it returns the text together with the soup as it is
    afterwards. *)
Definition _extract_text (soup : Bs4.node) : string * Bs4.node :=
  let soup := Bs4.decompose_all ["script"; "style"; "nav"; "footer"] soup in
  let main_content :=
    match Bs4.find (Bs4.name_in ["main"]) soup with
    | Some m => m
    | None =>
        match Bs4.find (Bs4.name_in ["article"]) soup with
        | Some a => a
        | None => soup
        end
    end in
  (Bs4.get_text_strip nl main_content, soup).

Definition _count_words (text : string) : Z := Py.len (Py.split_ws text).

Definition _count_sections (soup : Bs4.node) : Z :=
  Py.len (Bs4.find_all (Bs4.name_in ["h1"; "h2"; "h3"; "h4"; "h5"; "h6"])
                       soup).

Definition _count_images (soup : Bs4.node) : Z :=
  Py.len (Bs4.find_all (Bs4.name_in ["img"]) soup).

(** [soup.find_all('a', href=True)] *)
Definition anchor_with_href (n : Bs4.node) : bool :=
  Bs4.name_in ["a"] n
  && match Bs4.get "href" n with Some _ => true | None => false end.

Definition _extract_links (soup : Bs4.node) : list string :=
  List.flat_map
    (fun link =>
       match Bs4.get "href" link with
       | Some href => if Py.startswith href "http" then [href] else []
       | None => []
       end)
    (Bs4.find_all anchor_with_href soup).

Section WithParser.

(** [BeautifulSoup(content, 'html.parser')]: the parser is an outside
    library; it yields a tree or rejects the markup with an exception. *)
Variable html_parser : string -> result Bs4.node.

Definition extract_metadata (env : AppConfig.Environ) (self_url : string)
           (content : string) : result Metadata :=
  match html_parser content with
  | Raise e => Raise e
  | Ret soup =>
      let title := _extract_title soup in
      let description := _extract_description soup in
      let breadcrumbs := _extract_breadcrumbs soup in
      Ret {| title := title;
             description := description;
             breadcrumbs := breadcrumbs;
             url := self_url;
             timestamp := _get_current_timestamp env |}
  end.

(** The counts and the links are read from the soup after
    [_extract_text] has pruned it. *)
Definition analyze_content (env : AppConfig.Environ) (content : string)
  : result Analysis :=
  match html_parser content with
  | Raise e => Raise e
  | Ret soup =>
      let (text_content, soup) := _extract_text soup in
      let word_count := _count_words text_content in
      let section_count := _count_sections soup in
      let image_count := _count_images soup in
      let links := _extract_links soup in
      match _get_api_analysis env text_content with
      | Raise e => Raise e
      | Ret api_metrics =>
          Ret {| word_count := word_count;
                 section_count := section_count;
                 image_count := image_count;
                 links := links;
                 readability_score := basic_readability_score api_metrics;
                 sentiment := basic_sentiment api_metrics;
                 complexity_score := basic_complexity_score api_metrics;
                 structure_score := basic_structure_score api_metrics |}
      end
  end.

(** The dictionary [process_url] returns: either the two-key error
    record, or the metadata and the analysis merged with
    ['success': True]. *)
Inductive UrlRecord : Type :=
| FetchFailed (url : string) (error : string)
| Processed (metadata : Metadata) (analysis : Analysis).

(** The calls [process_url] makes on its own methods. *)
Inductive call_event : Type :=
| FetchContent (url : string) (log : list fetch_event)
| ExtractMetadata (content : string)
| AnalyzeContent (content : string).

(** Runs a fetch and records it as one event. *)
Definition call_fetch (self_url : string) (page : Page)
  : M call_event (option string) :=
  let (log, r) := fetch_content page in
  ([FetchContent self_url log], r).

(** [process_url] (lines 488-501) *)
Definition process_url (env : AppConfig.Environ) (page : Page)
           (self_url : string) : M call_event UrlRecord :=
  content <- call_fetch self_url page ;;
  match content with
  | Some c =>
      if negb (Py.truthy c)
      then ret (FetchFailed self_url "Failed to fetch content")
      else
        metadata <- (tell (ExtractMetadata c) ;;;
                     lift (extract_metadata env self_url c)) ;;
        analysis <- (tell (AnalyzeContent c) ;;;
                     lift (analyze_content env c)) ;;
        ret (Processed metadata analysis)
  | None => ret (FetchFailed self_url "Failed to fetch content")
  end.

End WithParser.

End ContentProcessor.

(** ** Scheduling: events and [asyncio.gather] *)

Module Asyncio.

(** What a batch run does, at its own level: the batch announcement,
    one task per URL with the calls that task made, and the sleeps
    between batches. *)
Inductive event (C : Type) : Type :=
| Batch (number total : Z)
| Task (url : string) (calls : list C)
| Sleep (seconds : Q).

Arguments Batch {C} number total.
Arguments Task {C} url calls.
Arguments Sleep {C} seconds.

Definition task_event {C A} (t : string * M C A) : event C :=
  Task (fst t) (trace_of (snd t)).

(** The exception [gather] re-raises: that of the first task, in
    argument order, that raised. *)
Fixpoint collect {A} (rs : list (result A)) : result (list A) :=
  match rs with
  | [] => Ret []
  | Raise e :: _ => Raise e
  | Ret a :: rest =>
      match collect rest with
      | Ret l => Ret (a :: l)
      | Raise e => Raise e
      end
  end.

(** [await asyncio.gather] over the tasks: all tasks run; the results come
    back in the order of the arguments, whatever the order of
    completion. *)
Definition gather {C A} (tasks : list (string * M C A))
  : M (event C) (list A) :=
  (List.map task_event tasks,
   collect (List.map (fun t => value_of (snd t)) tasks)).

(** [await asyncio.gather] with [return_exceptions=True]: an exception
    raised by a task takes the place of its result. *)
Definition gather_return_exceptions {C A} (tasks : list (string * M C A))
  : M (event C) (list (result A)) :=
  (List.map task_event tasks,
   Ret (List.map (fun t => value_of (snd t)) tasks)).

Definition sleep {C} (seconds : Q) : M (event C) unit :=
  tell (Sleep seconds).

End Asyncio.

(** ** content_processor.py: class BatchProcessor *)

Module BatchProcessor.

Import Asyncio.
Local Open Scope py_scope.

Section Run.

Variable html_parser : string -> result Bs4.node.
Variable env : AppConfig.Environ.
(** The page each URL leads to. *)
Variable browser : string -> Browser.Page.
(** [AppConfig.DEFAULT_DELAY], which config.py does not define. *)
Variable DEFAULT_DELAY : Q.

Variable urls : list string.
Variable batch_size : Z.

Definition event : Type := Asyncio.event ContentProcessor.call_event.

(** [[r for r in results if not isinstance(r, Exception)]] *)
Fixpoint drop_exceptions {A} (results : list (result A)) : list A :=
  match results with
  | [] => []
  | Ret r :: rest => r :: drop_exceptions rest
  | Raise _ :: rest => drop_exceptions rest
  end.

(** [process_batch] (lines 514-525) *)
Definition process_batch (start_idx : Z)
  : M event (list ContentProcessor.UrlRecord) :=
  let batch_urls := Py.slice urls start_idx (start_idx + batch_size) in
  let tasks :=
    List.map
      (fun url =>
         (url, ContentProcessor.process_url html_parser env (browser url) url))
      batch_urls in
  results <- gather_return_exceptions tasks ;;
  ret (drop_exceptions results).

(** The body of [for i in range(0, len(self.urls), self.batch_size)]
    (lines 534-540), over the indices still to visit. *)
Fixpoint process_all_loop (indices : list Z)
         (all_results : list ContentProcessor.UrlRecord)
  : M event (list ContentProcessor.UrlRecord) :=
  match indices with
  | [] => ret all_results
  | i :: rest =>
      let total_batches := ((Py.len urls + batch_size - 1) / batch_size)%Z in
      tell (Batch (i / batch_size + 1)%Z total_batches) ;;;
      batch_results <- process_batch i ;;
      let all_results := all_results ++ batch_results in
      (if (i + batch_size <? Py.len urls)%Z
       then sleep DEFAULT_DELAY else ret tt) ;;;
      process_all_loop rest all_results
  end.

(** [process_all] (lines 527-542).  The division of line 530 raises on a
    zero batch size before the loop is reached. *)
Definition process_all : M event (list ContentProcessor.UrlRecord) :=
  if (batch_size =? 0)%Z then raise "ZeroDivisionError"
  else
    indices <- lift (Py.range 0 (Py.len urls) batch_size) ;;
    process_all_loop indices [].

End Run.

End BatchProcessor.

(** ** main.py *)

Module Main.

Import Asyncio.
Local Open Scope py_scope.

(** The dictionary [process_url] returns. *)
Inductive Record_ : Type :=
| Success (url : string) (content : string) (length : Z)
| Error (url : string) (error : string).

Definition status (r : Record_) : string :=
  match r with
  | Success _ _ _ => "success"
  | Error _ _ => "error"
  end.

Definition url_of (r : Record_) : string :=
  match r with
  | Success u _ _ => u
  | Error u _ => u
  end.

Section Run.

Variable browser : string -> Browser.Page.

Definition event : Type := Asyncio.event ContentProcessor.call_event.

(** [process_url] (lines 90-115) *)
Definition process_url (url : string)
  : M ContentProcessor.call_event Record_ :=
  try_except
    (content <- ContentProcessor.call_fetch url (browser url) ;;
     match content with
     | Some c =>
         if Py.truthy c then ret (Success url c (Py.len_str c))
         else ret (Error url "No content extracted")
     | None => ret (Error url "No content extracted")
     end)
    (fun e => ret (Error url e)).

(** The body of [for i in range(0, len(urls), batch_size)]
    (lines 121-134), over the indices still to visit. *)
Fixpoint process_batch_loop (urls : list string) (batch_size : Z)
         (delay : Q) (indices : list Z) (results : list Record_)
  : M event (list Record_) :=
  match indices with
  | [] => ret results
  | i :: rest =>
      let batch := Py.slice urls i (i + batch_size) in
      tell (Batch (i / batch_size + 1)%Z
                  ((Py.len urls + batch_size - 1) / batch_size)%Z) ;;;
      batch_results <-
        gather (List.map (fun url => (url, process_url url)) batch) ;;
      let results := results ++ batch_results in
      (if (i + batch_size <? Py.len urls)%Z
       then sleep delay else ret tt) ;;;
      process_batch_loop urls batch_size delay rest results
  end.

(** [process_batch] (lines 117-136) *)
Definition process_batch (urls : list string) (batch_size : Z) (delay : Q)
  : M event (list Record_) :=
  indices <- lift (Py.range 0 (Py.len urls) batch_size) ;;
  process_batch_loop urls batch_size delay indices [].

End Run.

(** The URLs [main] adds from the file of [--urls-file] (lines 154-156):
    each line stripped, the blank ones skipped. *)
Definition urls_from_file (lines : list string) : list string :=
  List.flat_map
    (fun line => if Py.truthy (Py.strip line) then [Py.strip line] else [])
    lines.

(** The URLs [main] processes (lines 153-156): the positional arguments,
    then those of the file when one is given. *)
Definition collect_urls (args : list string)
           (urls_file : option (list string)) : list string :=
  match urls_file with
  | Some lines => args ++ urls_from_file lines
  | None => args
  end.

(** The statistics [main] prints (lines 185-197). *)
Definition successful (results : list Record_) : Z :=
  Py.len (List.filter (fun r => String.eqb (status r) "success") results).

Definition failed (results : list Record_) : Z :=
  Py.len (List.filter (fun r => String.eqb (status r) "error") results).

Definition total (results : list Record_) : Z := Py.len results.

(** [(successful/total)*100] *)
Definition success_rate (results : list Record_) : result Q :=
  match Py.truediv (successful results) (total results) with
  | Ret q => Ret (q * inject_Z 100)%Q
  | Raise e => Raise e
  end.

End Main.

(** ** Reading traces and results *)

Module Observe.

Import ContentProcessor.

(** The selectors of the ["Trying selector"] lines of a fetch log, in
    the order they were written. *)
Fixpoint tried (log : list fetch_event) : list string :=
  match log with
  | [] => []
  | Trying s :: rest => s :: tried rest
  | _ :: rest => tried rest
  end.

(** The selector of the last ["Found content using selector"] line: the
    one whose text the fetch holds at the end. *)
Fixpoint matched_selector_from (last : option string)
         (log : list fetch_event) : option string :=
  match log with
  | [] => last
  | Found s _ :: rest => matched_selector_from (Some s) rest
  | _ :: rest => matched_selector_from last rest
  end.

Definition matched_selector (log : list fetch_event) : option string :=
  matched_selector_from None log.

(** The first selector of [sels] that answers, with its text. *)
Fixpoint first_visible (q : string -> Browser.response)
         (sels : list string) : option (string * string) :=
  match sels with
  | [] => None
  | s :: rest =>
      match q s with
      | Browser.Visible t => Some (s, t)
      | Browser.Missing => first_visible q rest
      end
  end.

(** The content a sweep leaves: the text of the first selector that
    answers, or the content held before when none does. *)
Definition after_sweep (q : string -> Browser.response)
           (content : option string) : option string :=
  match first_visible q selectors with
  | Some (_, t) => Some t
  | None => content
  end.

(** The content held after the sweeps of all attempts. *)
Definition last_extracted (page : Browser.Page) : option string :=
  List.fold_left
    (fun content attempt =>
       after_sweep (Browser.wait_for_selector page attempt) content)
    (List.seq 0 max_retries) None.

(** A content of at most 100 characters, or none. *)
Definition short (content : option string) : Prop :=
  match content with
  | Some c => (Py.len_str c <= 100)%Z
  | None => True
  end.

(** No selector ever yields more than 100 characters. *)
Definition never_significant (page : Browser.Page) : Prop :=
  forall attempt selector t,
    Browser.wait_for_selector page attempt selector = Browser.Visible t ->
    (Py.len_str t <= 100)%Z.

(** The session itself works: launch, navigation, title read and
    teardown all go through. *)
Definition session_ok (page : Browser.Page) : Prop :=
  Browser.launch_ok page = true /\ Browser.goto_ok page = true
  /\ Browser.title_ok page = true /\ Browser.close_ok page = true.

(** The log of a sweep that finds nothing in [pre] and then finds [t]
    under [s]. *)
Definition sweep_log (pre : list string) (s t : string)
  : list fetch_event :=
  List.flat_map (fun x => [Trying x; NotFound x]) pre
  ++ [Trying s; Found s (Py.len_str t)].

(** The durations of the sleeps of a batch run, in order. *)
Fixpoint sleeps {C} (trace : list (Asyncio.event C)) : list Q :=
  match trace with
  | [] => []
  | Asyncio.Sleep d :: rest => d :: sleeps rest
  | _ :: rest => sleeps rest
  end.

(** The calls of a URL's processing that reach the metadata extractor
    or the analyzer. *)
Definition is_extraction_call (c : call_event) : bool :=
  match c with
  | FetchContent _ _ => false
  | ExtractMetadata _ => true
  | AnalyzeContent _ => true
  end.

(** A metadata record with its timestamp blanked. *)
Definition erase_timestamp (r : result Metadata) : result Metadata :=
  match r with
  | Ret m =>
      Ret {| title := title m;
             description := description m;
             breadcrumbs := breadcrumbs m;
             url := url m;
             timestamp := "" |}
  | Raise e => Raise e
  end.

(** The record [Main.process_url] yields for a URL. *)
Definition main_record (browser : string -> Browser.Page) (url : string)
  : Main.Record_ :=
  match value_of (Main.process_url browser url) with
  | Ret r => r
  | Raise e => Main.Error url e
  end.

(** What one turn of the loop of [Main.process_batch], at index [i],
    adds to the trace: the announcement, the tasks of the batch, and the
    sleep when more URLs follow. *)
Definition main_turn (browser : string -> Browser.Page)
           (urls : list string) (batch_size : Z) (delay : Q) (i : Z)
  : list Main.event :=
  Asyncio.Batch (i / batch_size + 1)%Z
                ((Py.len urls + batch_size - 1) / batch_size)%Z
  :: List.map
       (fun url =>
          Asyncio.Task url (trace_of (Main.process_url browser url)))
       (Py.slice urls i (i + batch_size))
  ++ (if (i + batch_size <? Py.len urls)%Z
      then [Asyncio.Sleep delay] else []).

(** The same for the loop of [BatchProcessor.process_all]. *)
Definition batch_turn (html_parser : string -> result Bs4.node)
           (env : AppConfig.Environ) (browser : string -> Browser.Page)
           (DEFAULT_DELAY : Q) (urls : list string) (batch_size : Z)
           (i : Z) : list BatchProcessor.event :=
  Asyncio.Batch (i / batch_size + 1)%Z
                ((Py.len urls + batch_size - 1) / batch_size)%Z
  :: List.map
       (fun url =>
          Asyncio.Task url
            (trace_of (process_url html_parser env (browser url) url)))
       (Py.slice urls i (i + batch_size))
  ++ (if (i + batch_size <? Py.len urls)%Z
      then [Asyncio.Sleep DEFAULT_DELAY] else []).

(** The records [BatchProcessor.process_batch] keeps for a batch. *)
Definition kept_records (html_parser : string -> result Bs4.node)
           (env : AppConfig.Environ) (browser : string -> Browser.Page)
           (batch : list string) : list UrlRecord :=
  BatchProcessor.drop_exceptions
    (List.map
       (fun url =>
          value_of (process_url html_parser env (browser url) url))
       batch).

End Observe.

(** ** The specification's notions *)

Module Spec.

(** The outcome of a fetch, as the specification names it: a text, the
    empty outcome (the empty string), or a failure ([None]). *)
Inductive FetchOutcome : Type :=
| Success (text : string)
| Empty
| Failure.

Definition outcome_of (r : result (option string)) : FetchOutcome :=
  match r with
  | Ret (Some EmptyString) => Empty
  | Ret (Some t) => Success t
  | Ret None => Failure
  | Raise _ => Failure
  end.

(** Number of tokens that belong to a lexicon. *)
Definition votes (lexicon tokens : list string) : nat :=
  List.length
    (List.filter (fun t => List.existsb (String.eqb t) lexicon) tokens).

(** Majority vote between the two lexicons, ties giving neutral. *)
Definition majority_vote (tokens : list string) : string :=
  match Nat.compare (votes ContentProcessor.positive_words tokens)
                    (votes ContentProcessor.negative_words tokens) with
  | Gt => "positive"
  | Lt => "negative"
  | Eq => "neutral"
  end.

(** The lowercased whitespace-split tokens of a text. *)
Definition lowercased_tokens (text : string) : list string :=
  List.map Py.lower (Py.split_ws text).

(** Number of tokens equal to a given word. *)
Definition occurrences (word : string) (tokens : list string) : nat :=
  List.length (List.filter (String.eqb word) tokens).

Definition is_alpha (c : ascii) : bool :=
  let n := nat_of_ascii c in
  (((65 <=? n) && (n <=? 90)) || ((97 <=? n) && (n <=? 122)))%nat.

Definition is_scheme_char (c : ascii) : bool :=
  let n := nat_of_ascii c in
  is_alpha c || ((48 <=? n) && (n <=? 57))%nat
  || (n =? 43)%nat || (n =? 45)%nat || (n =? 46)%nat.

(** Whether the characters up to the first colon are scheme
    characters, a colon being present. *)
Fixpoint scheme_rest (s : string) : bool :=
  match s with
  | EmptyString => false
  | String c r =>
      if (nat_of_ascii c =? 58)%nat then true
      else is_scheme_char c && scheme_rest r
  end.

(** An absolute reference: it starts with a scheme (a letter, then
    letters, digits, [+], [-] or [.]) and a colon. *)
Definition scheme_prefixed (s : string) : bool :=
  match s with
  | EmptyString => false
  | String c r => is_alpha c && scheme_rest r
  end.

(** The jittered delay the specification describes, drawn by [uniform]
    within 20% of the configured delay; config.py holds it as the first
    [get_delay]. *)
Definition jittered (uniform : Q -> Q -> Q) (delay : Q) : Q :=
  AppConfig.get_delay_jittered uniform delay.

End Spec.

(** ** Measures of traces and trees *)

Module Measure.

Import ContentProcessor.

Definition is_attempt (e : fetch_event) : bool :=
  match e with
  | Attempt _ => true
  | _ => false
  end.

Definition is_retry_sleep (e : fetch_event) : bool :=
  match e with
  | RetrySleep => true
  | _ => false
  end.

(** Number of attempts a fetch log shows. *)
Definition attempts_made (log : list fetch_event) : nat :=
  List.length (List.filter is_attempt log).

(** Number of two-second sleeps a fetch log shows. *)
Definition retry_sleeps (log : list fetch_event) : nat :=
  List.length (List.filter is_retry_sleep log).

(** The batch announcements of a run, as pairs (number, total). *)
Fixpoint announcements {C} (trace : list (Asyncio.event C))
  : list (Z * Z) :=
  match trace with
  | [] => []
  | Asyncio.Batch k t :: rest => (k, t) :: announcements rest
  | _ :: rest => announcements rest
  end.

(** The URLs of the tasks at the head of a trace, up to the next
    announcement. *)
Fixpoint leading_tasks {C} (trace : list (Asyncio.event C))
  : list string :=
  match trace with
  | [] => []
  | Asyncio.Batch _ _ :: _ => []
  | Asyncio.Task u _ :: rest => u :: leading_tasks rest
  | Asyncio.Sleep _ :: rest => leading_tasks rest
  end.

(** The URLs of the tasks of a run, grouped by the announcement they
    follow. *)
Fixpoint batches_of {C} (trace : list (Asyncio.event C))
  : list (list string) :=
  match trace with
  | [] => []
  | Asyncio.Batch _ _ :: rest => leading_tasks rest :: batches_of rest
  | _ :: rest => batches_of rest
  end.

(** One turn of a batch loop, for any way of recording a task. *)
Definition turn {C} (task : string -> list C) (urls : list string)
           (batch_size : Z) (delay : Q) (i : Z)
  : list (Asyncio.event C) :=
  Asyncio.Batch (i / batch_size + 1)%Z
                ((Py.len urls + batch_size - 1) / batch_size)%Z
  :: List.map (fun url => Asyncio.Task url (task url))
              (Py.slice urls i (i + batch_size))
  ++ (if (i + batch_size <? Py.len urls)%Z
      then [Asyncio.Sleep delay] else []).

(** The number of batches of [n] URLs in batches of [batch_size]. *)
Definition batch_count (n batch_size : Z) : Z :=
  ((n + batch_size - 1) / batch_size)%Z.

(** The indices a batch loop visits: 0, [batch_size], twice
    [batch_size], and so on, one per batch. *)
Definition visited (n batch_size : Z) : list Z :=
  List.map (fun k => (0 + Z.of_nat k * batch_size)%Z)
    (List.seq 0 (Z.to_nat (batch_count n batch_size))).

(** The tag names of a tree, in document order. *)
Definition tag_names (n : Bs4.node) : list string :=
  List.flat_map
    (fun d => match d with Bs4.Tag t _ _ => [t] | _ => [] end)
    (Bs4.descendants n).

(** The subtrees [_extract_text] removes. *)
Definition unwanted : list string := ["script"; "style"; "nav"; "footer"].

(** Number of URLs of a list whose processing raises. *)
Definition raising (html_parser : string -> result Bs4.node)
           (env : AppConfig.Environ) (browser : string -> Browser.Page)
           (urls : list string) : nat :=
  List.length
    (List.filter
       (fun u => is_exception
                   (value_of (process_url html_parser env (browser u) u)))
       urls).

(** Number of occurrences of a character in a string. *)
Fixpoint count_char (c : ascii) (s : string) : nat :=
  match s with
  | EmptyString => 0
  | String x r =>
      (if Ascii.eqb c x then 1 else 0) + count_char c r
  end.

(** The full stop. *)
Definition period : ascii := ascii_of_nat 46.

(** A string without whitespace at either end. *)
Definition trimmed (s : string) : Prop := Py.strip s = s.

End Measure.

(** ** Sample inputs *)

Module Samples.

Import Browser.

(** A text of 40 characters. *)
Definition text40 : string := "Forty characters of text, not one more.!".

(** A page that loads and on which, in every attempt, only [body]
    answers, with [text]. *)
Definition body_only (text : string) : Page :=
  {| launch_ok := true;
     goto_ok := true;
     wait_for_selector :=
       fun _ selector =>
         if String.eqb selector "body" then Visible text else Missing;
     title_ok := true;
     close_ok := true |}.

(** A page whose navigation fails. *)
Definition unreachable : Page :=
  {| launch_ok := true;
     goto_ok := false;
     wait_for_selector := fun _ _ => Missing;
     title_ok := true;
     close_ok := true |}.

Definition env0 : AppConfig.Environ :=
  {| AppConfig.getenv := fun _ => None;
     AppConfig.now_isoformat := "2024-01-01T00:00:00" |}.

Definition url_a : string := "https://example.com/a".

(** A long enough text of a page: 104 characters. *)
Definition text104 : string :=
  "<![x y " ++ "0123456789012345678901234567890123456789012345678901234567890123456789012345678901234567890123456".

(** A parser that rejects every markup. *)
Definition rejecting_parser (content : string) : result Bs4.node :=
  Raise "ParserRejectedMarkup".

(** A document of four anchors: two to the same absolute address, one
    to a relative address that starts with the letters http, one to a
    local path. *)
Definition soup_links : Bs4.node :=
  Bs4.BeautifulSoup
    [ Bs4.Tag "a" [("href", "http://example.com/x")]
              [Bs4.NavigableString "one"];
      Bs4.Tag "a" [("href", "http://example.com/x")]
              [Bs4.NavigableString "two"];
      Bs4.Tag "a" [("href", "http-notes.html")]
              [Bs4.NavigableString "three"];
      Bs4.Tag "a" [("href", "/local")]
              [Bs4.NavigableString "four"] ].

(** The markup of [soup_links]. *)
Definition markup_links : string :=
  "<a href='http://example.com/x'>one</a><a href='http://example.com/x'>two</a><a href='http-notes.html'>three</a><a href='/local'>four</a>".

(** A parser that knows [markup_links] and takes any other content for
    plain text. *)
Definition links_parser (content : string) : result Bs4.node :=
  if String.eqb content markup_links then Ret soup_links
  else Ret (Bs4.BeautifulSoup [Bs4.NavigableString content]).

Definition five_urls : list string :=
  [ "https://example.com/1"; "https://example.com/2";
    "https://example.com/3"; "https://example.com/4";
    "https://example.com/5" ].

(** Every URL leads to the page of 40 characters. *)
Definition browser40 (url : string) : Page := body_only text40.

(** Every URL leads to the page of 104 characters. *)
Definition browser104 (url : string) : Page := body_only text104.

(** The random source that always draws the lower bound. *)
Definition draw_low (a b : Q) : Q := a.

End Samples.

(** * Properties *)

Unset Implicit Arguments.

(** ** Facts about the built-ins *)

Module PyFacts.

Lemma split_from_length (sep : string) (s : string) :
  forall skip cur, (1 <= List.length (Py.split_from sep skip cur s))%nat.
Proof.
  induction s as [|c r IH]; intros skip cur; simpl.
  - lia.
  - destruct skip as [|k].
    + match goal with |- context [if ?b then _ else _] => destruct b end.
      * simpl. lia.
      * apply IH.
    + apply IH.
Qed.

Lemma split_length (sep s : string) : (1 <= Py.len (Py.split sep s))%Z.
Proof.
  unfold Py.len, Py.split.
  pose proof (split_from_length sep s 0 "") as H. lia.
Qed.

Lemma is_space_lower_char (c : ascii) :
  Py.is_space (Py.lower_char c) = Py.is_space c.
Proof.
  destruct c as [[] [] [] [] [] [] [] []]; reflexivity.
Qed.

Lemma lower_app (a b : string) :
  Py.lower (a ++ b) = (Py.lower a ++ Py.lower b)%string.
Proof.
  induction a as [|c a IH]; simpl; [reflexivity | now rewrite IH].
Qed.

(** Lowering the text and then splitting gives the tokens of the text,
    each lowered. *)
Lemma split_ws_from_lower (s : string) :
  forall cur,
    Py.split_ws_from (Py.lower cur) (Py.lower s)
    = List.map Py.lower (Py.split_ws_from cur s).
Proof.
  induction s as [|c r IH]; intros cur; simpl.
  - destruct cur; reflexivity.
  - rewrite is_space_lower_char.
    destruct (Py.is_space c).
    + destruct cur; simpl; [apply (IH "") | f_equal; apply (IH "")].
    + rewrite <- IH, lower_app. reflexivity.
Qed.

Lemma split_ws_lower (s : string) :
  Py.split_ws (Py.lower s) = List.map Py.lower (Py.split_ws s).
Proof. apply (split_ws_from_lower s ""). Qed.

Lemma truediv_nonzero (a b : Z) :
  b <> 0%Z -> Py.truediv a b = Ret (inject_Z a / inject_Z b)%Q.
Proof.
  intros H. unfold Py.truediv.
  destruct (Z.eqb_spec b 0); [contradiction | reflexivity].
Qed.

End PyFacts.

(** ** The fallback scores *)

(** C10.  The fallback scores never divide by zero.  Splitting any text
    on the period yields at least one fragment; the readability score
    divides the word count by the fragment count exactly when there is
    more than one fragment and is 0 otherwise; the guard of the
    structure score always holds, so that score is always the quotient
    of the paragraph count by the fragment count, a positive number, and
    its 0.0 branch is never taken.  Neither function raises. *)
Theorem fallback_scores_division_safe (text : string) :
  let words := Py.len (Py.split_ws text) in
  let sentences := Py.len (Py.split "." text) in
  let paragraphs :=
    Py.len (Py.split (ContentProcessor.nl ++ ContentProcessor.nl) text) in
  (1 <= sentences)%Z
  /\ ContentProcessor._calculate_readability text
     = Ret (if (1 <? sentences)%Z
            then (inject_Z words / inject_Z sentences)%Q else 0%Q)
  /\ (0 <? sentences)%Z = true
  /\ ContentProcessor._analyze_structure text
     = Ret (inject_Z paragraphs / inject_Z sentences)%Q
  /\ (0 < inject_Z paragraphs / inject_Z sentences)%Q.
Proof.
  intros words sentences paragraphs.
  assert (Hs : (1 <= sentences)%Z) by apply PyFacts.split_length.
  assert (Hp : (1 <= paragraphs)%Z) by apply PyFacts.split_length.
  split; [exact Hs|].
  split.
  { unfold ContentProcessor._calculate_readability.
    fold words sentences.
    destruct (1 <? sentences)%Z; [|reflexivity].
    apply PyFacts.truediv_nonzero. lia. }
  split; [apply Z.ltb_lt; lia|].
  split.
  { unfold ContentProcessor._analyze_structure.
    fold paragraphs sentences.
    replace (0 <? sentences)%Z with true by (symmetry; apply Z.ltb_lt; lia).
    apply PyFacts.truediv_nonzero. lia. }
  apply Qlt_shift_div_l.
  - change 0%Q with (inject_Z 0). rewrite <- Zlt_Qlt. lia.
  - rewrite Qmult_0_l. change 0%Q with (inject_Z 0).
    rewrite <- Zlt_Qlt. lia.
Qed.

(** ** Sentiment *)

Module SentimentFacts.

Import ContentProcessor.

Lemma count_in_votes (lexicon tokens : list string) :
  count_in lexicon tokens = Z.of_nat (Spec.votes lexicon tokens).
Proof. reflexivity. Qed.

Lemma mem_In (x : string) (l : list string) :
  List.existsb (String.eqb x) l = true <-> List.In x l.
Proof.
  rewrite List.existsb_exists. split.
  - intros [y [Hy He]]. apply String.eqb_eq in He. now subst.
  - intros H. exists x. split; [exact H | apply String.eqb_refl].
Qed.

(** When the only lexicon words among the tokens are "great" and "bad",
    the two vote counts are the occurrence counts of these words. *)
Lemma votes_great_bad (tokens : list string) :
  (forall w, List.In w tokens ->
             List.In w (positive_words ++ negative_words) ->
             w = "great" \/ w = "bad") ->
  Spec.votes positive_words tokens = Spec.occurrences "great" tokens
  /\ Spec.votes negative_words tokens = Spec.occurrences "bad" tokens.
Proof.
  unfold Spec.votes, Spec.occurrences.
  induction tokens as [|t ts IH]; intros Hw; [split; reflexivity|].
  destruct IH as [IHp IHn].
  { intros w Hin. apply Hw. now right. }
  assert (Ht : List.In t (positive_words ++ negative_words) ->
               t = "great" \/ t = "bad") by (apply Hw; now left).
  cbn [List.filter].
  assert (Hp : List.existsb (String.eqb t) positive_words
               = String.eqb "great" t).
  { destruct (List.existsb (String.eqb t) positive_words) eqn:E.
    - assert (Hin : List.In t positive_words) by now apply mem_In.
      destruct Ht as [-> | ->];
        [apply List.in_or_app; now left | reflexivity | discriminate E].
    - destruct (String.eqb_spec "great" t) as [<- | _];
        [discriminate E | reflexivity]. }
  assert (Hn : List.existsb (String.eqb t) negative_words
               = String.eqb "bad" t).
  { destruct (List.existsb (String.eqb t) negative_words) eqn:E.
    - assert (Hin : List.In t negative_words) by now apply mem_In.
      destruct Ht as [-> | ->];
        [apply List.in_or_app; now right | discriminate E | reflexivity].
    - destruct (String.eqb_spec "bad" t) as [<- | _];
        [discriminate E | reflexivity]. }
  rewrite Hp, Hn.
  split.
  - destruct (String.eqb "great" t); cbn [List.length]; now rewrite IHp.
  - destruct (String.eqb "bad" t); cbn [List.length]; now rewrite IHn.
Qed.

End SentimentFacts.

(** C7.  The sentiment label is the majority vote between the positive
    and the negative lexicon over the lowercased whitespace-split tokens
    of the text, a tie giving "neutral".  In particular, a text whose
    tokens hold "great" twice and "bad" once, and no other word of the
    two lexicons, is labelled "positive". *)
Theorem sentiment_majority_vote (text : string) :
  ContentProcessor._get_basic_sentiment text
  = Spec.majority_vote (Spec.lowercased_tokens text)
  /\ (Spec.occurrences "great" (Spec.lowercased_tokens text) = 2%nat ->
      Spec.occurrences "bad" (Spec.lowercased_tokens text) = 1%nat ->
      (forall w,
          List.In w (Spec.lowercased_tokens text) ->
          List.In w (ContentProcessor.positive_words
                     ++ ContentProcessor.negative_words) ->
          w = "great" \/ w = "bad") ->
      ContentProcessor._get_basic_sentiment text = "positive").
Proof.
  assert (Hmaj : ContentProcessor._get_basic_sentiment text
                 = Spec.majority_vote (Spec.lowercased_tokens text)).
  { unfold ContentProcessor._get_basic_sentiment, Spec.majority_vote,
      Spec.lowercased_tokens.
    rewrite PyFacts.split_ws_lower, !SentimentFacts.count_in_votes.
    set (tokens := List.map Py.lower (Py.split_ws text)).
    destruct (Nat.compare_spec
                (Spec.votes ContentProcessor.positive_words tokens)
                (Spec.votes ContentProcessor.negative_words tokens))
      as [E | E | E].
    - rewrite E, Z.ltb_irrefl. reflexivity.
    - replace (_ <? _)%Z with false by (symmetry; apply Z.ltb_ge; lia).
      replace (_ <? _)%Z with true by (symmetry; apply Z.ltb_lt; lia).
      reflexivity.
    - replace (_ <? _)%Z with true by (symmetry; apply Z.ltb_lt; lia).
      reflexivity. }
  split; [exact Hmaj|].
  intros Hg Hb Hw. rewrite Hmaj. unfold Spec.majority_vote.
  destruct (SentimentFacts.votes_great_bad _ Hw) as [-> ->].
  rewrite Hg, Hb. reflexivity.
Qed.

(** The scenario on a sample text, capitals included. *)
Lemma sentiment_majority_vote_witness :
  ContentProcessor._get_basic_sentiment
    "It was GREAT, truly great and Great value - not bad"
  = "positive".
Proof.
  apply (sentiment_majority_vote
           "It was GREAT, truly great and Great value - not bad").
  - reflexivity.
  - reflexivity.
  - vm_compute. intros w H.
    repeat (destruct H as [<- | H];
            [let G := fresh in
             intros G; vm_compute in G;
             repeat (destruct G as [G | G]; try discriminate G);
             auto; contradiction|]).
    contradiction.
Defined.

(** ** The trace monad *)

Module MFacts.

Lemma trace_bind {E A B} (m : M E A) (k : A -> M E B) :
  trace_of (bind m k)
  = match value_of m with
    | Ret a => trace_of m ++ trace_of (k a)
    | Raise _ => trace_of m
    end.
Proof.
  destruct m as [t [a|e]]; simpl; [|reflexivity].
  destruct (k a); reflexivity.
Qed.

Lemma value_bind {E A B} (m : M E A) (k : A -> M E B) :
  value_of (bind m k)
  = match value_of m with
    | Ret a => value_of (k a)
    | Raise e => Raise e
    end.
Proof.
  destruct m as [t [a|e]]; simpl; [|reflexivity].
  destruct (k a); reflexivity.
Qed.

Lemma pair_eta {E A} (m : M E A) : m = (trace_of m, value_of m).
Proof. destruct m; reflexivity. Qed.

End MFacts.

(** ** The selector sweep and the retry loop *)

Module FetchFacts.

Import Browser ContentProcessor Observe.

(** A sweep in which nothing answers before [s] and [s] answers [t]. *)
Lemma try_selectors_found (q : string -> response) (s t : string)
      (post : list string) (content : option string) :
  forall pre,
    (forall x, List.In x pre -> q x = Missing) ->
    q s = Visible t ->
    try_selectors q (pre ++ s :: post) content
    = (sweep_log pre s t, Ret (Some t)).
Proof.
  induction pre as [|x pre IH]; intros Hpre Hs.
  - simpl. rewrite Hs. reflexivity.
  - cbn [List.app try_selectors].
    rewrite (Hpre x) by now left.
    rewrite IH; [reflexivity | | exact Hs].
    intros y Hy. apply Hpre. now right.
Qed.

Lemma tried_sweep_log (pre : list string) (s t : string) :
  tried (sweep_log pre s t) = pre ++ [s].
Proof.
  unfold sweep_log.
  induction pre as [|x pre IH]; [reflexivity|].
  simpl. now rewrite IH.
Qed.

Lemma matched_from_app (l1 l2 : list fetch_event) :
  forall last,
    matched_selector_from last (l1 ++ l2)
    = matched_selector_from (matched_selector_from last l1) l2.
Proof.
  induction l1 as [|e l1 IH]; intros last; [reflexivity|].
  destruct e; simpl; apply IH.
Qed.

Lemma matched_sweep_log (pre : list string) (s t : string) :
  forall last, matched_selector_from last (sweep_log pre s t) = Some s.
Proof.
  unfold sweep_log.
  induction pre as [|x pre IH]; intros last; [reflexivity|].
  simpl. apply IH.
Qed.

(** The value of a sweep, whatever answers. *)
Lemma try_selectors_value (q : string -> response)
      (content : option string) :
  forall sels,
    value_of (try_selectors q sels content)
    = Ret (match first_visible q sels with
           | Some (_, t) => Some t
           | None => content
           end).
Proof.
  induction sels as [|x sels IH]; [reflexivity|].
  cbn [try_selectors first_visible].
  destruct (q x) as [|t].
  - rewrite !MFacts.value_bind. simpl. exact IH.
  - reflexivity.
Qed.

Lemma short_not_significant (content : option string) :
  short content -> significant content = false.
Proof.
  destruct content as [c|]; simpl; [|reflexivity].
  intros H. replace (100 <? Py.len_str c)%Z with false.
  - apply Bool.andb_false_r.
  - symmetry. apply Z.ltb_ge. exact H.
Qed.

Lemma after_sweep_short (page : Page) (attempt : nat)
      (content : option string) :
  never_significant page -> short content ->
  short (after_sweep (wait_for_selector page attempt) content).
Proof.
  intros Hn Hc. unfold after_sweep.
  generalize selectors. intros sels.
  induction sels as [|x sels IH]; simpl; [exact Hc|].
  destruct (wait_for_selector page attempt x) as [|t] eqn:E;
    [exact IH | simpl; exact (Hn _ _ _ E)].
Qed.

(** When no sweep yields significant text, every attempt runs and the
    loop ends with the content the last sweep left. *)
Lemma attempts_never_significant (page : Page) :
  never_significant page ->
  forall todo content,
    short content ->
    value_of (attempts page todo content)
    = Ret (List.fold_left
             (fun c a => after_sweep (wait_for_selector page a) c)
             todo content).
Proof.
  intros Hn.
  induction todo as [|a todo IH]; intros content Hc; [reflexivity|].
  cbn [attempts List.fold_left].
  rewrite MFacts.value_bind. cbn [tell value_of snd].
  rewrite MFacts.value_bind, try_selectors_value.
  fold (after_sweep (wait_for_selector page a) content).
  pose proof (after_sweep_short page a content Hn Hc) as Hs.
  rewrite (short_not_significant _ Hs).
  rewrite MFacts.value_bind. cbn [tell value_of snd].
  apply IH. exact Hs.
Qed.

Lemma fetch_content_trace (page : Page) :
  launch_ok page = true -> goto_ok page = true ->
  trace_of (fetch_content page)
  = trace_of (attempts page (List.seq 0 max_retries) None).
Proof.
  intros Hl Hg. unfold fetch_content. rewrite Hl, Hg. simpl negb. cbv iota.
  rewrite MFacts.trace_bind.
  destruct (value_of (attempts page (List.seq 0 max_retries) None))
    as [[c|]|e]; try reflexivity.
  - destruct (title_ok page), (close_ok page); simpl;
      apply List.app_nil_r.
  - simpl. apply List.app_nil_r.
Qed.

Lemma fetch_content_value (page : Page) :
  session_ok page ->
  value_of (fetch_content page)
  = value_of (attempts page (List.seq 0 max_retries) None).
Proof.
  intros (Hl & Hg & Ht & Hc). unfold fetch_content.
  rewrite Hl, Hg, Ht, Hc. simpl negb. cbv iota.
  rewrite MFacts.value_bind.
  destruct (value_of (attempts page (List.seq 0 max_retries) None))
    as [[c|]|e]; reflexivity.
Qed.

(** On a page where only [body] ever answers, the log of the retry
    loop ends on a match of [body] as soon as one attempt has run. *)
Lemma attempts_body_only (page : Page) :
  (forall attempt x, x <> "body" ->
                     wait_for_selector page attempt x = Missing) ->
  (forall attempt, exists t,
        wait_for_selector page attempt "body" = Visible t) ->
  forall todo content last,
    matched_selector_from last (trace_of (attempts page todo content))
    = match todo with
      | [] => last
      | _ => Some "body"
      end.
Proof.
  intros Hother Hbody.
  induction todo as [|a todo IH]; intros content last; [reflexivity|].
  destruct (Hbody a) as [t Ht].
  assert (Hsweep : try_selectors (wait_for_selector page a) selectors content
                   = (sweep_log [".article-body"; ".article-content";
                                 ".content-section"; ".main-content";
                                 "#main-content"; "article"] "body" t,
                      Ret (Some t))).
  { change selectors
      with ([".article-body"; ".article-content"; ".content-section";
             ".main-content"; "#main-content"; "article"]
            ++ "body" :: []).
    apply try_selectors_found; [|exact Ht].
    intros x Hx. apply Hother. intros ->.
    simpl in Hx. repeat (destruct Hx as [Hx|Hx]; [discriminate Hx|]).
    exact Hx. }
  cbn [attempts].
  rewrite MFacts.trace_bind. cbn [tell value_of snd trace_of fst].
  rewrite MFacts.trace_bind, Hsweep. cbn [value_of snd trace_of fst].
  cbn [List.app]. cbn [matched_selector_from].
  rewrite matched_from_app, matched_sweep_log.
  destruct (significant (Some t)); [reflexivity|].
  rewrite MFacts.trace_bind. cbn [tell value_of snd trace_of fst].
  cbn [List.app matched_selector_from].
  rewrite IH. destruct todo; reflexivity.
Qed.

End FetchFacts.

(** ** Fetching *)

(** C5.  The sweep tries the fixed priority list [.article-body],
    [.article-content], [.content-section], [.main-content],
    [#main-content], [article], [body] in that order and stops at the
    first selector that answers: the selectors tried are exactly those
    up to and including it, and its text becomes the content.  On a page
    where only [body] answers, the selector the fetch ends on is
    [body]. *)
Theorem selector_priority_first_match_wins :
  ContentProcessor.selectors
  = [ ".article-body"; ".article-content"; ".content-section";
      ".main-content"; "#main-content"; "article"; "body" ]
  /\ (forall (q : string -> Browser.response) (content : option string)
             (pre : list string) (s : string) (post : list string)
             (t : string),
         ContentProcessor.selectors = pre ++ s :: post ->
         (forall x, List.In x pre -> q x = Browser.Missing) ->
         q s = Browser.Visible t ->
         let sweep :=
           ContentProcessor.try_selectors q ContentProcessor.selectors
                                          content in
         value_of sweep = Ret (Some t)
         /\ Observe.tried (trace_of sweep) = pre ++ [s]
         /\ Observe.matched_selector (trace_of sweep) = Some s)
  /\ (forall page : Browser.Page,
         Browser.launch_ok page = true ->
         Browser.goto_ok page = true ->
         (forall attempt x,
             x <> "body" ->
             Browser.wait_for_selector page attempt x = Browser.Missing) ->
         (forall attempt, exists t,
             Browser.wait_for_selector page attempt "body"
             = Browser.Visible t) ->
         Observe.matched_selector
           (trace_of (ContentProcessor.fetch_content page))
         = Some "body").
Proof.
  split; [reflexivity|]. split.
  - intros q content pre s post t Hsel Hpre Hs sweep. subst sweep.
    rewrite Hsel.
    rewrite (FetchFacts.try_selectors_found q s t post content pre Hpre Hs).
    cbn [value_of trace_of fst snd].
    split; [reflexivity|]. split.
    + apply FetchFacts.tried_sweep_log.
    + apply FetchFacts.matched_sweep_log.
  - intros page Hl Hg Hother Hbody.
    rewrite (FetchFacts.fetch_content_trace page Hl Hg).
    unfold Observe.matched_selector.
    rewrite (FetchFacts.attempts_body_only page Hother Hbody).
    reflexivity.
Qed.

(** The fallback on a sample page whose only match is [body]. *)
Lemma selector_priority_first_match_wins_witness :
  Observe.matched_selector
    (trace_of (ContentProcessor.fetch_content
                 (Samples.body_only Samples.text40)))
  = Some "body".
Proof.
  apply (proj2 (proj2 selector_priority_first_match_wins)).
  - reflexivity.
  - reflexivity.
  - intros attempt x Hx. simpl.
    destruct (String.eqb_spec x "body"); [contradiction | reflexivity].
  - intros attempt. exists Samples.text40. reflexivity.
Defined.

(** C2, as stated, fails: on a page that loads, whose only match in each
    of the 3 attempts is a [body] of 40 characters, all selectors are
    swept three times and the fetch returns the 40 characters
    themselves, which is not the empty outcome. *)
Lemma short_text_is_returned_not_empty :
  let page := Samples.body_only Samples.text40 in
  let fetch := ContentProcessor.fetch_content page in
  Py.len_str Samples.text40 = 40%Z
  /\ Observe.tried (trace_of fetch)
     = ContentProcessor.selectors ++ ContentProcessor.selectors
       ++ ContentProcessor.selectors
  /\ value_of fetch = Ret (Some Samples.text40)
  /\ Spec.outcome_of (value_of fetch) = Spec.Success Samples.text40
  /\ Spec.outcome_of (value_of fetch) <> Spec.Empty.
Proof.
  cbv zeta.
  split; [reflexivity|].
  split; [vm_compute; reflexivity|].
  split; [vm_compute; reflexivity|].
  split; [vm_compute; reflexivity|].
  vm_compute. discriminate.
Qed.

(** C2, amended.  When the session works and no selector ever yields
    more than 100 characters, all three attempts run and the fetch
    returns the content the sweeps left: the text of the most recent
    selector match, short as it is.  If the last attempt matches a
    selector, that is its text.  The outcome is empty exactly when that
    text is the empty string. *)
Theorem fetch_returns_last_extracted_text (page : Browser.Page) :
  Observe.session_ok page ->
  Observe.never_significant page ->
  let fetch := ContentProcessor.fetch_content page in
  value_of fetch = Ret (Observe.last_extracted page)
  /\ (forall s t,
         Observe.first_visible (Browser.wait_for_selector page 2)
                               ContentProcessor.selectors = Some (s, t) ->
         value_of fetch = Ret (Some t))
  /\ (Spec.outcome_of (value_of fetch) = Spec.Empty
      <-> Observe.last_extracted page = Some "").
Proof.
  intros Hok Hn fetch. subst fetch.
  assert (Hv : value_of (ContentProcessor.fetch_content page)
               = Ret (Observe.last_extracted page)).
  { rewrite (FetchFacts.fetch_content_value page Hok).
    apply (FetchFacts.attempts_never_significant page Hn). exact I. }
  split; [exact Hv|]. split.
  - intros s t Hfv. rewrite Hv. f_equal.
    unfold Observe.last_extracted. cbn [List.seq List.fold_left
      ContentProcessor.max_retries].
    unfold Observe.after_sweep at 1. rewrite Hfv. reflexivity.
  - rewrite Hv. destruct (Observe.last_extracted page) as [[|c r]|];
      simpl; split; intros H; try reflexivity; discriminate H.
Qed.

(** The amended statement on the sample page of 40 characters. *)
Lemma fetch_returns_last_extracted_text_witness :
  value_of (ContentProcessor.fetch_content
              (Samples.body_only Samples.text40))
  = Ret (Observe.last_extracted (Samples.body_only Samples.text40)).
Proof.
  apply (fetch_returns_last_extracted_text
           (Samples.body_only Samples.text40)).
  - repeat split; reflexivity.
  - intros attempt selector t. simpl.
    destruct (String.eqb selector "body"); [|discriminate].
    intros H. injection H as <-. vm_compute. discriminate.
Defined.

(** ** Processing one URL *)

Module UrlFacts.

Import Browser ContentProcessor.

Lemma attempts_returns (page : Page) :
  forall todo content,
  exists c, value_of (attempts page todo content) = Ret c.
Proof.
  induction todo as [|a todo IH]; intros content.
  - exists content. reflexivity.
  - cbn [attempts].
    rewrite MFacts.value_bind. cbn [tell value_of snd].
    rewrite MFacts.value_bind, FetchFacts.try_selectors_value.
    match goal with
    | |- context [significant ?c] => destruct (significant c); [now exists c|]
    end.
    rewrite MFacts.value_bind. cbn [tell value_of snd].
    apply IH.
Qed.

(** A fetch never raises. *)
Lemma fetch_content_returns (page : Page) :
  exists c, value_of (fetch_content page) = Ret c.
Proof.
  unfold fetch_content.
  destruct (launch_ok page); [|now exists None].
  destruct (goto_ok page); [|now exists None].
  simpl negb. cbv iota.
  rewrite MFacts.value_bind.
  destruct (attempts_returns page (List.seq 0 max_retries) None)
    as [c ->].
  destruct c as [c|]; [|now exists None].
  destruct (title_ok page); [|now exists None].
  destruct (close_ok page); [now exists (Some c) | now exists None].
Qed.

Lemma call_fetch_eq (url : string) (page : Page) :
  call_fetch url page
  = ([FetchContent url (trace_of (fetch_content page))],
     value_of (fetch_content page)).
Proof.
  unfold call_fetch. destruct (fetch_content page). reflexivity.
Qed.

(** [Main.process_url] always returns a record, and the record carries
    the URL it was asked for. *)
Lemma main_process_url_returns (browser : string -> Page) (u : string) :
  value_of (Main.process_url browser u)
  = Ret (Observe.main_record browser u)
  /\ Main.url_of (Observe.main_record browser u) = u.
Proof.
  unfold Observe.main_record.
  assert (H : exists r, value_of (Main.process_url browser u) = Ret r
                        /\ Main.url_of r = u).
  { unfold Main.process_url. rewrite call_fetch_eq.
    destruct (fetch_content_returns (browser u)) as [c ->].
    destruct c as [[|a c]|]; simpl; eauto. }
  destruct H as [r [-> Hr]]. split; [reflexivity | exact Hr].
Qed.

End UrlFacts.

(** C3, as stated, fails: a page whose [body] holds no text (the empty
    outcome) and a page whose navigation fails (a failure) are recorded
    by the same error record, on both paths; no kind sets them apart. *)
Lemma empty_and_failure_recorded_alike :
  let empty_page := Samples.body_only "" in
  let failed_page := Samples.unreachable in
  let u := Samples.url_a in
  Spec.outcome_of (value_of (ContentProcessor.fetch_content empty_page))
  = Spec.Empty
  /\ Spec.outcome_of (value_of (ContentProcessor.fetch_content failed_page))
     = Spec.Failure
  /\ value_of (ContentProcessor.process_url
                 Samples.links_parser Samples.env0 empty_page u)
     = Ret (ContentProcessor.FetchFailed u "Failed to fetch content")
  /\ value_of (ContentProcessor.process_url
                 Samples.links_parser Samples.env0 failed_page u)
     = Ret (ContentProcessor.FetchFailed u "Failed to fetch content")
  /\ value_of (Main.process_url (fun _ => empty_page) u)
     = Ret (Main.Error u "No content extracted")
  /\ value_of (Main.process_url (fun _ => failed_page) u)
     = Ret (Main.Error u "No content extracted").
Proof.
  cbv zeta. repeat split; vm_compute; reflexivity.
Qed.

(** C3, amended.  When the fetch ends empty or in failure, processing
    the URL returns an error record at once: the only call made is the
    fetch, and neither the metadata extractor nor the analyzer is
    reached.  The record is the same in both cases: the message
    "Failed to fetch content" from [ContentProcessor.process_url], the
    status "error" with "No content extracted" from
    [Main.process_url]. *)
Theorem empty_or_failed_fetch_gives_error
        (html_parser : string -> result Bs4.node)
        (env : AppConfig.Environ) (browser : string -> Browser.Page)
        (u : string) :
  let fetch := ContentProcessor.fetch_content (browser u) in
  Spec.outcome_of (value_of fetch) = Spec.Empty
  \/ Spec.outcome_of (value_of fetch) = Spec.Failure ->
  let run := ContentProcessor.process_url html_parser env (browser u) u in
  value_of run
  = Ret (ContentProcessor.FetchFailed u "Failed to fetch content")
  /\ trace_of run = [ContentProcessor.FetchContent u (trace_of fetch)]
  /\ List.filter Observe.is_extraction_call (trace_of run) = []
  /\ value_of (Main.process_url browser u)
     = Ret (Main.Error u "No content extracted").
Proof.
  intros fetch H run. subst fetch run.
  unfold ContentProcessor.process_url, Main.process_url.
  rewrite UrlFacts.call_fetch_eq.
  destruct (UrlFacts.fetch_content_returns (browser u)) as [c Hc].
  rewrite Hc in *.
  destruct c as [[|a c]|]; simpl in H.
  - repeat split; reflexivity.
  - destruct H as [H|H]; discriminate H.
  - repeat split; reflexivity.
Qed.

(** The amended statement on the page with an empty [body]. *)
Lemma empty_or_failed_fetch_gives_error_witness :
  value_of (ContentProcessor.process_url
              Samples.links_parser Samples.env0
              (Samples.body_only "") Samples.url_a)
  = Ret (ContentProcessor.FetchFailed Samples.url_a
                                      "Failed to fetch content").
Proof.
  apply (empty_or_failed_fetch_gives_error
           Samples.links_parser Samples.env0
           (fun _ => Samples.body_only "") Samples.url_a).
  left. vm_compute. reflexivity.
Defined.

(** C4: what the code does on an exception of the extraction.  The page
    yields 104 characters, so the fetch succeeds, and the parser rejects
    them.  [ContentProcessor.process_url] lets the exception out, and
    the batch drops the URL: no record is returned for it. *)
Lemma extraction_exception_is_dropped :
  let page := Samples.body_only Samples.text104 in
  let u := Samples.url_a in
  value_of (ContentProcessor.fetch_content page)
  = Ret (Some Samples.text104)
  /\ value_of (ContentProcessor.process_url
                 Samples.rejecting_parser Samples.env0 page u)
     = Raise "ParserRejectedMarkup"
  /\ value_of (BatchProcessor.process_batch
                 Samples.rejecting_parser Samples.env0 Samples.browser104
                 [u] 1 0)
     = Ret []
  /\ value_of (BatchProcessor.process_all
                 Samples.rejecting_parser Samples.env0 Samples.browser104
                 (2 # 1) [u] 1)
     = Ret [].
Proof.
  cbv zeta. repeat split; vm_compute; reflexivity.
Qed.

(** ** Batches *)

Module BatchFacts.

(** A slice that starts at a non-negative index and spans a positive
    width. *)
Lemma slice_window {A} (l : list A) (lo w : Z) :
  (0 <= lo)%Z -> (0 < w)%Z ->
  Py.slice l lo (lo + w)
  = List.firstn (Z.to_nat w) (List.skipn (Z.to_nat lo) l).
Proof.
  intros Hlo Hw. unfold Py.slice, Py.clamp_index, Py.len.
  set (n := Z.of_nat (List.length l)).
  assert (Hn : (0 <= n)%Z) by (subst n; lia).
  replace (lo <? 0)%Z with false by (symmetry; apply Z.ltb_ge; lia).
  replace (lo + w <? 0)%Z with false by (symmetry; apply Z.ltb_ge; lia).
  destruct (Z_lt_le_dec lo n) as [Hlt | Hge].
  - replace (Z.max 0 (Z.min n lo)) with lo by lia.
    assert (Hlen : List.length (List.skipn (Z.to_nat lo) l)
                   = Z.to_nat (n - lo)).
    { rewrite List.length_skipn. subst n. lia. }
    destruct (Z_le_gt_dec (lo + w) n) as [Hin | Hout].
    + replace (Z.max 0 (Z.min n (lo + w)) - lo)%Z with w by lia.
      reflexivity.
    + replace (Z.max 0 (Z.min n (lo + w)) - lo)%Z with (n - lo)%Z by lia.
      rewrite !List.firstn_all2; [reflexivity | lia | lia].
  - replace (Z.max 0 (Z.min n lo)) with n by lia.
    replace (Z.max 0 (Z.min n (lo + w)) - n)%Z with 0%Z by lia.
    rewrite !List.skipn_all2; [| subst n; lia | subst n; lia].
    simpl. now rewrite List.firstn_nil.
Qed.

(** Consecutive windows of width [b] that reach the end of the list
    add up to the list. *)
Lemma windows_concat {A} (b : nat) :
  forall (cnt : nat) (l : list A),
    (List.length l <= cnt * b)%nat ->
    List.flat_map (fun k => List.firstn b (List.skipn (k * b) l))
                  (List.seq 0 cnt)
    = l.
Proof.
  induction cnt as [|cnt IH]; intros l Hl.
  - destruct l; [reflexivity | simpl in Hl; lia].
  - rewrite <- List.cons_seq, <- List.seq_shift.
    cbn [List.flat_map]. rewrite List.flat_map_concat_map, List.map_map.
    rewrite <- List.flat_map_concat_map.
    rewrite (List.flat_map_ext _
               (fun k => List.firstn b
                           (List.skipn (k * b) (List.skipn b l)))).
    + rewrite IH.
      * apply List.firstn_skipn.
      * rewrite List.length_skipn. lia.
    + intros k. rewrite List.skipn_skipn.
      replace (S k * b)%nat with (k * b + b)%nat by lia. reflexivity.
Qed.

(** With a positive step the batches of [range(0, len(l), step)] cover
    the list, in order. *)
Lemma batches_cover {A} (l : list A) (step : Z) :
  (0 < step)%Z ->
  exists indices,
    Py.range 0 (Py.len l) step = Ret indices
    /\ List.flat_map (fun i => Py.slice l i (i + step)) indices = l.
Proof.
  intros Hstep. unfold Py.range.
  replace (step =? 0)%Z with false by (symmetry; apply Z.eqb_neq; lia).
  eexists. split; [reflexivity|].
  rewrite List.flat_map_concat_map, List.map_map.
  rewrite <- List.flat_map_concat_map.
  rewrite (List.flat_map_ext _
             (fun k => List.firstn (Z.to_nat step)
                         (List.skipn (k * Z.to_nat step) l))).
  - apply windows_concat.
    unfold Py.range_len, Py.len.
    replace (0 <? step)%Z with true by (symmetry; apply Z.ltb_lt; lia).
    destruct (Z.ltb_spec 0 (Z.of_nat (List.length l))) as [Hpos | Hzero].
    + set (n := Z.of_nat (List.length l)) in *.
      pose proof (Z.div_mod (n - 1 - 0) step ltac:(lia)) as Hdm.
      pose proof (Z.mod_pos_bound (n - 1 - 0) step Hstep) as Hmod.
      assert (Hq : (0 <= (n - 1 - 0) / step)%Z)
        by (apply Z.div_pos; lia).
      apply Nat2Z.inj_le. rewrite Nat2Z.inj_mul, !Z2Nat.id by lia.
      fold n. nia.
    + lia.
  - intros k. rewrite slice_window by lia. f_equal. f_equal. nia.
Qed.

Section MainLoop.

Variable browser : string -> Browser.Page.
Variable urls : list string.
Variable batch_size : Z.
Variable delay : Q.

Lemma gather_main (batch : list string) :
  Asyncio.gather
    (List.map (fun url => (url, Main.process_url browser url)) batch)
  = (List.map
       (fun url =>
          Asyncio.Task url (trace_of (Main.process_url browser url)))
       batch,
     Ret (List.map (Observe.main_record browser) batch)).
Proof.
  unfold Asyncio.gather. f_equal.
  - rewrite List.map_map. reflexivity.
  - rewrite List.map_map. cbn [snd].
    induction batch as [|u batch IH]; [reflexivity|].
    cbn [List.map Asyncio.collect].
    rewrite (proj1 (UrlFacts.main_process_url_returns browser u)), IH.
    reflexivity.
Qed.

(** The loop of [Main.process_batch], whatever the indices: its trace
    is made of the turns, and it returns the records of the URLs of the
    batches, appended in order. *)
Lemma main_loop_run (indices : list Z) :
  forall results,
    Main.process_batch_loop browser urls batch_size delay indices results
    = (List.flat_map (Observe.main_turn browser urls batch_size delay)
                     indices,
       Ret (results
            ++ List.map (Observe.main_record browser)
                 (List.flat_map
                    (fun i => Py.slice urls i (i + batch_size))
                    indices))).
Proof.
  induction indices as [|i indices IH]; intros results.
  - simpl. unfold ret. now rewrite List.app_nil_r.
  - cbn [Main.process_batch_loop List.flat_map].
    rewrite gather_main. unfold Observe.main_turn at 1.
    unfold bind, tell, Asyncio.sleep, ret.
    destruct (i + batch_size <? Py.len urls)%Z; rewrite IH;
      cbn [List.app]; rewrite List.map_app, <- !List.app_assoc;
      reflexivity.
Qed.

End MainLoop.

Section ProcessorLoop.

Variable html_parser : string -> result Bs4.node.
Variable env : AppConfig.Environ.
Variable browser : string -> Browser.Page.
Variable DEFAULT_DELAY : Q.
Variable urls : list string.
Variable batch_size : Z.

Lemma process_batch_run (i : Z) :
  BatchProcessor.process_batch html_parser env browser urls batch_size i
  = (List.map
       (fun url =>
          Asyncio.Task url
            (trace_of (ContentProcessor.process_url
                         html_parser env (browser url) url)))
       (Py.slice urls i (i + batch_size)),
     Ret (Observe.kept_records html_parser env browser
            (Py.slice urls i (i + batch_size)))).
Proof.
  unfold BatchProcessor.process_batch, Asyncio.gather_return_exceptions,
    Observe.kept_records, bind, ret.
  rewrite !List.map_map, List.app_nil_r. reflexivity.
Qed.

Lemma drop_exceptions_app {A} (a b : list (result A)) :
  BatchProcessor.drop_exceptions (a ++ b)
  = BatchProcessor.drop_exceptions a ++ BatchProcessor.drop_exceptions b.
Proof.
  induction a as [|[x|e] a IH]; simpl; [reflexivity | | exact IH].
  now rewrite IH.
Qed.

Lemma kept_records_flat_map (batches : list (list string)) :
  List.flat_map (Observe.kept_records html_parser env browser) batches
  = Observe.kept_records html_parser env browser (List.concat batches).
Proof.
  unfold Observe.kept_records.
  induction batches as [|b batches IH]; [reflexivity|].
  cbn [List.flat_map List.concat].
  now rewrite IH, List.map_app, drop_exceptions_app.
Qed.

(** The loop of [BatchProcessor.process_all], whatever the indices. *)
Lemma process_all_loop_run (indices : list Z) :
  forall all_results,
    BatchProcessor.process_all_loop
      html_parser env browser DEFAULT_DELAY urls batch_size
      indices all_results
    = (List.flat_map
         (Observe.batch_turn html_parser env browser DEFAULT_DELAY
                             urls batch_size)
         indices,
       Ret (all_results
            ++ List.flat_map
                 (fun i =>
                    Observe.kept_records html_parser env browser
                      (Py.slice urls i (i + batch_size)))
                 indices)).
Proof.
  induction indices as [|i indices IH]; intros all_results.
  - simpl. unfold ret. now rewrite List.app_nil_r.
  - cbn [BatchProcessor.process_all_loop List.flat_map].
    rewrite process_batch_run. unfold Observe.batch_turn at 1.
    unfold bind, tell, Asyncio.sleep, ret.
    destruct (i + batch_size <? Py.len urls)%Z; rewrite IH;
      cbn [List.app]; rewrite <- !List.app_assoc; reflexivity.
Qed.

(** When no URL of the list raises, every URL keeps its record. *)
Lemma kept_records_length (batch : list string) :
  (forall u, List.In u batch ->
             is_exception
               (value_of (ContentProcessor.process_url
                            html_parser env (browser u) u)) = false) ->
  List.length (Observe.kept_records html_parser env browser batch)
  = List.length batch.
Proof.
  unfold Observe.kept_records.
  induction batch as [|u batch IH]; intros H; [reflexivity|].
  cbn [List.map].
  pose proof (H u (or_introl eq_refl)) as Hu.
  destruct (value_of (ContentProcessor.process_url
                        html_parser env (browser u) u)) as [r|e];
    [|discriminate Hu].
  cbn [BatchProcessor.drop_exceptions List.length].
  f_equal. apply IH. intros v Hv. apply H. now right.
Qed.

End ProcessorLoop.

End BatchFacts.

(** ** One result per URL *)

(** C1, as stated, fails: with the batch size -1 the loop of
    [Main.process_batch] has no index to visit and the run returns the
    empty list for a list of one URL; with the batch size 0 it raises
    instead of returning. *)
Lemma non_positive_batch_size_loses_urls :
  value_of (Main.process_batch Samples.browser40 [Samples.url_a] (-1)
                               (2 # 1))
  = Ret []
  /\ value_of (Main.process_batch Samples.browser40 [Samples.url_a] 0
                                  (2 # 1))
     = Raise "ValueError"
  /\ ~ (forall (urls : list string) (batch_size : Z),
           exists results,
             value_of (Main.process_batch Samples.browser40 urls
                                          batch_size (2 # 1))
             = Ret results
             /\ List.length results = List.length urls).
Proof.
  split; [vm_compute; reflexivity|].
  split; [vm_compute; reflexivity|].
  intros H. destruct (H [Samples.url_a] (-1)%Z) as [results [Hv Hl]].
  vm_compute in Hv. injection Hv as <-. discriminate Hl.
Qed.

(** C1, amended.  For every list of URLs and every batch size of at
    least 1, [Main.process_batch] returns exactly one record per input
    URL, in input order: the record at each position is the one
    [process_url] yields for the URL at that position, success or
    error, and it carries that URL.  Under the same condition
    [BatchProcessor.process_all] returns one record per URL whenever
    no URL's processing raises. *)
Theorem one_result_per_url_in_order
        (browser : string -> Browser.Page) (urls : list string)
        (batch_size : Z) (delay : Q) :
  (0 < batch_size)%Z ->
  (exists results,
      value_of (Main.process_batch browser urls batch_size delay)
      = Ret results
      /\ List.length results = List.length urls
      /\ List.map Main.url_of results = urls
      /\ results = List.map (Observe.main_record browser) urls)
  /\ (forall html_parser env DEFAULT_DELAY,
         (forall u, List.In u urls ->
                    is_exception
                      (value_of (ContentProcessor.process_url
                                   html_parser env (browser u) u))
                    = false) ->
         exists results,
           value_of (BatchProcessor.process_all
                       html_parser env browser DEFAULT_DELAY
                       urls batch_size)
           = Ret results
           /\ List.length results = List.length urls).
Proof.
  intros Hpos.
  destruct (BatchFacts.batches_cover urls batch_size Hpos)
    as [indices [Hrange Hcover]].
  split.
  - exists (List.map (Observe.main_record browser) urls).
    split; [|split; [|split]].
    + unfold Main.process_batch. rewrite Hrange.
      unfold lift, bind.
      rewrite BatchFacts.main_loop_run, Hcover. reflexivity.
    + apply List.length_map.
    + rewrite List.map_map.
      rewrite <- (List.map_id urls) at 2.
      apply List.map_ext. intros u.
      apply (UrlFacts.main_process_url_returns browser u).
    + reflexivity.
  - intros html_parser env DEFAULT_DELAY Hok.
    exists (Observe.kept_records html_parser env browser urls).
    split.
    + unfold BatchProcessor.process_all.
      replace (batch_size =? 0)%Z with false
        by (symmetry; apply Z.eqb_neq; lia).
      rewrite Hrange. unfold lift, bind.
      rewrite BatchFacts.process_all_loop_run. cbn [value_of snd List.app].
      f_equal.
      rewrite List.flat_map_concat_map, <- List.map_map,
        <- List.flat_map_concat_map.
      rewrite BatchFacts.kept_records_flat_map.
      rewrite <- List.flat_map_concat_map, Hcover. reflexivity.
    + apply BatchFacts.kept_records_length. exact Hok.
Qed.

(** The amended statement on five URLs in batches of two. *)
Lemma one_result_per_url_in_order_witness :
  exists results,
    value_of (Main.process_batch Samples.browser40 Samples.five_urls 2
                                 (2 # 1))
    = Ret results
    /\ List.length results = List.length Samples.five_urls
    /\ List.map Main.url_of results = Samples.five_urls
    /\ results
       = List.map (Observe.main_record Samples.browser40)
                  Samples.five_urls.
Proof.
  apply (one_result_per_url_in_order
           Samples.browser40 Samples.five_urls 2 (2 # 1)).
  reflexivity.
Defined.

(** ** Pacing *)

(** C6, as stated, fails on the jitter: with a configured delay of 10
    seconds and a random source that draws the lower bound, the jittered
    delay would be 8 seconds, but both sleeps of the run last the
    configured 10 seconds. *)
Lemma inter_batch_delay_is_not_jittered :
  let run :=
    Main.process_batch Samples.browser40 Samples.five_urls 2 (10 # 1) in
  Observe.sleeps (trace_of run) = [(10 # 1)%Q; (10 # 1)%Q]
  /\ (Spec.jittered Samples.draw_low (10 # 1) == 8 # 1)%Q
  /\ ~ (10 # 1 == Spec.jittered Samples.draw_low (10 # 1))%Q
  /\ Observe.sleeps (trace_of run)
     <> [Spec.jittered Samples.draw_low (10 # 1);
         Spec.jittered Samples.draw_low (10 # 1)].
Proof.
  cbv zeta.
  split; [vm_compute; reflexivity|].
  split; [vm_compute; reflexivity|].
  split; [vm_compute; discriminate|].
  vm_compute. discriminate.
Qed.

(** C6, amended.  For 5 URLs and a batch size of 2 the run is: batch 1
    of 3 with two tasks, a sleep, batch 2 of 3 with two tasks, a sleep,
    batch 3 of 3 with one task, and no sleep after it.  Each of the two
    sleeps lasts exactly the configured delay, without jitter; in
    [BatchProcessor.process_all] each lasts exactly [DEFAULT_DELAY]. *)
Theorem five_urls_two_exact_delays
        (browser : string -> Browser.Page) (u1 u2 u3 u4 u5 : string)
        (delay : Q) :
  let urls := [u1; u2; u3; u4; u5] in
  let run := Main.process_batch browser urls 2 delay in
  let task u := Asyncio.Task u (trace_of (Main.process_url browser u)) in
  trace_of run
  = [ Asyncio.Batch 1 3; task u1; task u2; Asyncio.Sleep delay;
      Asyncio.Batch 2 3; task u3; task u4; Asyncio.Sleep delay;
      Asyncio.Batch 3 3; task u5 ]
  /\ Observe.sleeps (trace_of run) = [delay; delay]
  /\ (forall html_parser env DEFAULT_DELAY,
         Observe.sleeps
           (trace_of (BatchProcessor.process_all
                        html_parser env browser DEFAULT_DELAY urls 2))
         = [DEFAULT_DELAY; DEFAULT_DELAY]).
Proof.
  intros urls run task.
  assert (Htrace :
            trace_of run
            = [ Asyncio.Batch 1 3; task u1; task u2; Asyncio.Sleep delay;
                Asyncio.Batch 2 3; task u3; task u4; Asyncio.Sleep delay;
                Asyncio.Batch 3 3; task u5 ]).
  { subst run task urls. unfold Main.process_batch.
    change (Py.range 0 (Py.len [u1; u2; u3; u4; u5]) 2)
      with (Ret [0; 2; 4]%Z).
    unfold lift, bind. rewrite BatchFacts.main_loop_run.
    cbn [trace_of fst]. unfold Observe.main_turn.
    generalize (Main.process_url browser). intros f.
    vm_compute. reflexivity. }
  split; [exact Htrace|]. split.
  - rewrite Htrace. reflexivity.
  - intros html_parser env DEFAULT_DELAY. subst urls.
    unfold BatchProcessor.process_all.
    change (2 =? 0)%Z with false. cbv iota.
    change (Py.range 0 (Py.len [u1; u2; u3; u4; u5]) 2)
      with (Ret [0; 2; 4]%Z).
    unfold lift, bind. rewrite BatchFacts.process_all_loop_run.
    cbn [trace_of fst]. unfold Observe.batch_turn.
    generalize (ContentProcessor.process_url html_parser env).
    intros f. vm_compute. reflexivity.
Qed.

(** ** Extraction and analysis *)

Module AnalysisFacts.

Import ContentProcessor.

(** Whatever the environment holds, the API tier ends in the basic
    analysis of the text. *)
Lemma api_analysis_is_basic (env : AppConfig.Environ) (text : string) :
  _get_api_analysis env text = _get_basic_analysis text.
Proof.
  unfold _get_api_analysis.
  destruct (AppConfig.get_api_key env) as [k|e].
  - destruct (negb (Py.truthy k));
      destruct (_get_basic_analysis text); reflexivity.
  - reflexivity.
Qed.

End AnalysisFacts.

(** C8.  Extraction and analysis depend on the markup alone: two calls
    on the same markup, even under environments that differ in the
    clock and in the variables, return the same metadata once the
    timestamp is set aside, and the same metrics; a rejected markup
    raises the same exception in both. *)
Theorem extraction_and_analysis_deterministic
        (html_parser : string -> result Bs4.node)
        (env1 env2 : AppConfig.Environ) (self_url content : string) :
  Observe.erase_timestamp
    (ContentProcessor.extract_metadata html_parser env1 self_url content)
  = Observe.erase_timestamp
      (ContentProcessor.extract_metadata html_parser env2 self_url content)
  /\ ContentProcessor.analyze_content html_parser env1 content
     = ContentProcessor.analyze_content html_parser env2 content.
Proof.
  split.
  - unfold ContentProcessor.extract_metadata.
    destruct (html_parser content); reflexivity.
  - unfold ContentProcessor.analyze_content.
    destruct (html_parser content) as [soup|e]; [|reflexivity].
    destruct (ContentProcessor._extract_text soup) as [text soup'].
    rewrite !AnalysisFacts.api_analysis_is_basic. reflexivity.
Qed.

(** C9, as stated, fails: on a page with two anchors to the same
    address and one anchor to the relative address [http-notes.html],
    the links hold the address twice and hold the relative address,
    which has no scheme. *)
Lemma links_keep_duplicates_and_relative_hrefs :
  ContentProcessor._extract_links Samples.soup_links
  = ["http://example.com/x"; "http://example.com/x"; "http-notes.html"]
  /\ ~ List.NoDup (ContentProcessor._extract_links Samples.soup_links)
  /\ Spec.scheme_prefixed "http-notes.html" = false
  /\ match ContentProcessor.analyze_content
             Samples.links_parser Samples.env0 Samples.markup_links with
     | Ret a =>
         ContentProcessor.links a
         = ["http://example.com/x"; "http://example.com/x";
            "http-notes.html"]
     | Raise _ => False
     end.
Proof.
  split; [vm_compute; reflexivity|].
  split.
  { intros H.
    change (ContentProcessor._extract_links Samples.soup_links)
      with ["http://example.com/x"; "http://example.com/x";
            "http-notes.html"] in H.
    inversion H as [|x l Hnotin Hrest]. apply Hnotin. now left. }
  split; [vm_compute; reflexivity|].
  vm_compute. reflexivity.
Qed.

(** C9, amended.  The links are a list, in document order and with
    repetitions kept, of the [href] values that start with "http", each
    taken from an anchor element of the tree that has an [href]; in the
    metrics the tree is the parsed markup without its script, style,
    nav and footer subtrees. *)
Theorem links_are_http_hrefs_of_anchors (soup : Bs4.node) :
  List.Forall
    (fun href =>
       Py.startswith href "http" = true
       /\ exists a,
           List.In a (Bs4.descendants soup)
           /\ Bs4.name_in ["a"] a = true
           /\ Bs4.get "href" a = Some href)
    (ContentProcessor._extract_links soup)
  /\ ContentProcessor._extract_links soup
     = List.filter
         (fun href => Py.startswith href "http")
         (List.flat_map
            (fun a =>
               match Bs4.get "href" a with
               | Some href => [href]
               | None => []
               end)
            (List.filter (Bs4.name_in ["a"]) (Bs4.descendants soup)))
  /\ (forall html_parser env content,
         match html_parser content,
               ContentProcessor.analyze_content html_parser env content
         with
         | Ret parsed, Ret a =>
             ContentProcessor.links a
             = ContentProcessor._extract_links
                 (Bs4.decompose_all ["script"; "style"; "nav"; "footer"]
                                    parsed)
         | _, _ => True
         end).
Proof.
  split; [|split].
  - unfold ContentProcessor._extract_links.
    apply List.Forall_flat_map, List.Forall_forall.
    intros a Ha. unfold Bs4.find_all in Ha.
    apply List.filter_In in Ha. destruct Ha as [Hin Hanchor].
    unfold ContentProcessor.anchor_with_href in Hanchor.
    apply Bool.andb_true_iff in Hanchor. destruct Hanchor as [Hname _].
    destruct (Bs4.get "href" a) as [href|] eqn:Hhref; [|constructor].
    destruct (Py.startswith href "http") eqn:Hs; constructor;
      [|constructor].
    split; [exact Hs|]. exists a. auto.
  - unfold ContentProcessor._extract_links, Bs4.find_all.
    induction (Bs4.descendants soup) as [|d ds IH]; [reflexivity|].
    cbn [List.filter]. unfold ContentProcessor.anchor_with_href at 1.
    destruct (Bs4.name_in ["a"] d) eqn:Hname; cbn [andb].
    + destruct (Bs4.get "href" d) as [href|] eqn:Hhref.
      * cbn [List.flat_map]. rewrite Hhref. cbn [List.app List.filter].
        destruct (Py.startswith href "http"); cbn [List.app];
          now rewrite IH.
      * cbn [List.flat_map]. rewrite Hhref. exact IH.
    + exact IH.
  - intros html_parser env content.
    unfold ContentProcessor.analyze_content.
    destruct (html_parser content) as [parsed|e]; [|exact I].
    unfold ContentProcessor._extract_text.
    destruct (ContentProcessor._get_api_analysis env _); [|exact I].
    reflexivity.
Qed.

(** * Further properties of the code *)

(** ** The retry loop, attempt by attempt *)

Module RetryFacts.

Import Browser ContentProcessor Observe Measure.

Lemma tried_app (l1 l2 : list fetch_event) :
  tried (l1 ++ l2) = tried l1 ++ tried l2.
Proof.
  induction l1 as [|e l1 IH]; [reflexivity|].
  destruct e; simpl; now rewrite IH.
Qed.

(** A sweep writes neither attempt lines nor sleeps, and tries at most
    the selectors it is given. *)
Lemma sweep_measures (q : string -> response) (content : option string) :
  forall sels,
    let log := trace_of (try_selectors q sels content) in
    List.filter is_attempt log = []
    /\ List.filter is_retry_sleep log = []
    /\ (List.length (tried log) <= List.length sels)%nat.
Proof.
  induction sels as [|x sels IH]; [simpl; auto|].
  cbn [try_selectors]. destruct IH as (IHa & IHr & IHt).
  destruct (q x) as [|t].
  - rewrite MFacts.trace_bind. cbn [tell value_of snd trace_of fst].
    rewrite MFacts.trace_bind. cbn [tell value_of snd trace_of fst].
    cbn [List.app List.filter is_attempt is_retry_sleep tried List.length].
    repeat split; [exact IHa | exact IHr | lia].
  - cbn. repeat split; lia.
Qed.

(** The trace of the loop, one attempt unfolded. *)
Lemma attempts_trace_cons (page : Page) (a : nat) (todo : list nat)
      (content : option string) :
  let next := after_sweep (wait_for_selector page a) content in
  trace_of (attempts page (a :: todo) content)
  = Attempt (Z.of_nat a + 1)
    :: trace_of (try_selectors (wait_for_selector page a) selectors content)
    ++ (if significant next then []
        else RetrySleep :: trace_of (attempts page todo next)).
Proof.
  cbv zeta. cbn [attempts].
  rewrite MFacts.trace_bind. cbn [tell value_of snd trace_of fst List.app].
  f_equal.
  rewrite MFacts.trace_bind, FetchFacts.try_selectors_value.
  fold (after_sweep (wait_for_selector page a) content).
  f_equal.
  destruct (significant (after_sweep (wait_for_selector page a) content));
    [reflexivity|].
  rewrite MFacts.trace_bind. reflexivity.
Qed.

(** The value of the loop, one attempt unfolded. *)
Lemma attempts_value_cons (page : Page) (a : nat) (todo : list nat)
      (content : option string) :
  let next := after_sweep (wait_for_selector page a) content in
  value_of (attempts page (a :: todo) content)
  = if significant next then Ret next
    else value_of (attempts page todo next).
Proof.
  cbv zeta. cbn [attempts].
  rewrite MFacts.value_bind. cbn [tell value_of snd].
  rewrite MFacts.value_bind, FetchFacts.try_selectors_value.
  fold (after_sweep (wait_for_selector page a) content).
  destruct (significant (after_sweep (wait_for_selector page a) content));
    [reflexivity|].
  rewrite MFacts.value_bind. reflexivity.
Qed.

Lemma attempts_measures (page : Page) :
  forall todo content,
    let log := trace_of (attempts page todo content) in
    (attempts_made log <= List.length todo)%nat
    /\ (retry_sleeps log <= attempts_made log)%nat
    /\ (List.length (tried log)
        <= List.length selectors * attempts_made log)%nat.
Proof.
  induction todo as [|a todo IH]; intros content; [simpl; auto|].
  cbv zeta. rewrite attempts_trace_cons.
  unfold attempts_made, retry_sleeps.
  destruct (sweep_measures (wait_for_selector page a) content selectors)
    as (Ha & Hr & Ht).
  cbn [List.filter is_attempt is_retry_sleep tried List.length].
  rewrite !List.filter_app, Ha, Hr, tried_app, !List.length_app.
  cbn [List.app].
  destruct (significant (after_sweep (wait_for_selector page a) content)).
  - cbn [List.filter List.length tried]. repeat split; lia.
  - specialize (IH (after_sweep (wait_for_selector page a) content)).
    unfold attempts_made, retry_sleeps in IH. destruct IH as (I1 & I2 & I3).
    cbn [List.filter is_attempt is_retry_sleep tried List.length].
    repeat split; lia.
Qed.

(** When nothing significant ever comes, every attempt runs and every
    attempt is followed by a sleep, the last one included. *)
Lemma attempts_exhausted (page : Page) :
  never_significant page ->
  forall todo content,
    short content ->
    let log := trace_of (attempts page todo content) in
    attempts_made log = List.length todo
    /\ retry_sleeps log = List.length todo.
Proof.
  intros Hn.
  induction todo as [|a todo IH]; intros content Hc; [simpl; auto|].
  cbv zeta. rewrite attempts_trace_cons.
  pose proof (FetchFacts.after_sweep_short page a content Hn Hc) as Hs.
  rewrite (FetchFacts.short_not_significant _ Hs).
  destruct (sweep_measures (wait_for_selector page a) content selectors)
    as (Ha & Hr & _).
  destruct (IH _ Hs) as [I1 I2].
  unfold attempts_made, retry_sleeps in *.
  cbn [List.filter is_attempt is_retry_sleep List.length].
  rewrite !List.filter_app, Ha, Hr.
  cbn [List.app List.filter is_attempt is_retry_sleep List.length].
  split; lia.
Qed.

Lemma fetch_content_trace_cases (page : Page) :
  trace_of (fetch_content page)
  = if launch_ok page && goto_ok page
    then trace_of (attempts page (List.seq 0 max_retries) None)
    else [].
Proof.
  destruct (launch_ok page) eqn:Hl; destruct (goto_ok page) eqn:Hg;
    cbn [andb];
    try (unfold fetch_content; rewrite Hl, ?Hg; reflexivity).
  apply FetchFacts.fetch_content_trace; assumption.
Qed.

(** The first answer of a sweep splits the selector list. *)
Lemma first_visible_split (q : string -> response) (s t : string) :
  forall sels,
    first_visible q sels = Some (s, t) ->
    exists pre post,
      sels = pre ++ s :: post
      /\ (forall x, List.In x pre -> q x = Missing)
      /\ q s = Visible t.
Proof.
  induction sels as [|x sels IH]; intros H; [discriminate H|].
  cbn [first_visible] in H. destruct (q x) as [|t'] eqn:E.
  - destruct (IH H) as (pre & post & -> & Hpre & Hs).
    exists (x :: pre), post. repeat split; [|exact Hs].
    intros y [<- | Hy]; [exact E | now apply Hpre].
  - injection H as <- <-. exists [], sels. repeat split; [|exact E].
    intros y [].
Qed.

(** What the loop returns was either held before or answered by a
    selector in one of the attempts. *)
Lemma attempts_value_origin (page : Page) (c : string) :
  forall todo content,
    value_of (attempts page todo content) = Ret (Some c) ->
    content = Some c
    \/ exists attempt selector,
        List.In attempt todo /\ List.In selector selectors
        /\ wait_for_selector page attempt selector = Visible c.
Proof.
  induction todo as [|a todo IH]; intros content H.
  - left. simpl in H. now injection H.
  - rewrite attempts_value_cons in H. cbv zeta in H.
    assert (Hnext :
              after_sweep (wait_for_selector page a) content = Some c ->
              content = Some c
              \/ exists selector,
                  List.In selector selectors
                  /\ wait_for_selector page a selector = Visible c).
    { unfold after_sweep.
      destruct (first_visible (wait_for_selector page a) selectors)
        as [[s t]|] eqn:E; [|now left].
      intros Hc. injection Hc as ->. right.
      destruct (first_visible_split _ _ _ _ E) as (pre & post & Hsel & _ & Hs).
      exists s. split; [|exact Hs].
      rewrite Hsel. apply List.in_or_app. right. now left. }
    destruct (significant (after_sweep (wait_for_selector page a) content)).
    + injection H as H. destruct (Hnext H) as [Hc | [sel [Hin Hv]]];
        [now left|].
      right. exists a, sel. repeat split; [now left | exact Hin | exact Hv].
    + destruct (IH _ H) as [Hc | (att & sel & Hatt & Hin & Hv)].
      * destruct (Hnext Hc) as [Hc' | [sel [Hin Hv]]]; [now left|].
        right. exists a, sel. repeat split; [now left | exact Hin | exact Hv].
      * right. exists att, sel. repeat split; [now right | exact Hin | exact Hv].
Qed.

End RetryFacts.

(** X1.  The work of one fetch is bounded, whatever the page does: its
    log shows at most 3 attempts, at most one sleep per attempt, and at
    most 7 selector tries per attempt. *)
Theorem fetch_work_is_bounded (page : Browser.Page) :
  let log := trace_of (ContentProcessor.fetch_content page) in
  (Measure.attempts_made log <= 3)%nat
  /\ (Measure.retry_sleeps log <= Measure.attempts_made log)%nat
  /\ (List.length (Observe.tried log)
      <= 7 * Measure.attempts_made log)%nat.
Proof.
  cbv zeta. rewrite RetryFacts.fetch_content_trace_cases.
  destruct (Browser.launch_ok page && Browser.goto_ok page).
  - apply (RetryFacts.attempts_measures page
             (List.seq 0 ContentProcessor.max_retries) None).
  - simpl. auto.
Qed.

(** X2.  On a page that loads and never yields more than 100
    characters, the fetch runs all 3 attempts and sleeps after each of
    them, after the last one too. *)
Theorem exhausted_fetch_sleeps_after_every_attempt (page : Browser.Page) :
  Browser.launch_ok page = true ->
  Browser.goto_ok page = true ->
  Observe.never_significant page ->
  let log := trace_of (ContentProcessor.fetch_content page) in
  Measure.attempts_made log = 3%nat /\ Measure.retry_sleeps log = 3%nat.
Proof.
  intros Hl Hg Hn log. subst log.
  rewrite (FetchFacts.fetch_content_trace page Hl Hg).
  apply (RetryFacts.attempts_exhausted page Hn
           (List.seq 0 ContentProcessor.max_retries) None).
  exact I.
Qed.

(** X2 on the sample page of 40 characters. *)
Lemma exhausted_fetch_sleeps_after_every_attempt_witness :
  let log :=
    trace_of (ContentProcessor.fetch_content
                (Samples.body_only Samples.text40)) in
  Measure.attempts_made log = 3%nat /\ Measure.retry_sleeps log = 3%nat.
Proof.
  apply (exhausted_fetch_sleeps_after_every_attempt
           (Samples.body_only Samples.text40)).
  - reflexivity.
  - reflexivity.
  - intros attempt selector t. simpl.
    destruct (String.eqb selector "body"); [|discriminate].
    intros H. injection H as <-. vm_compute. discriminate.
Defined.

(** X3.  When the session works and the first selector to answer in
    the first attempt yields more than 100 characters, the fetch
    returns that text after a single attempt, without any sleep, and
    ends on that selector. *)
Theorem fetch_stops_at_first_significant_text
        (page : Browser.Page) (s t : string) :
  Observe.session_ok page ->
  Observe.first_visible (Browser.wait_for_selector page 0)
                        ContentProcessor.selectors = Some (s, t) ->
  (100 < Py.len_str t)%Z ->
  let fetch := ContentProcessor.fetch_content page in
  value_of fetch = Ret (Some t)
  /\ Measure.attempts_made (trace_of fetch) = 1%nat
  /\ Measure.retry_sleeps (trace_of fetch) = 0%nat
  /\ Observe.matched_selector (trace_of fetch) = Some s.
Proof.
  intros Hok Hfv Hlen fetch. subst fetch.
  assert (Hsig : ContentProcessor.significant (Some t) = true).
  { unfold ContentProcessor.significant.
    apply Bool.andb_true_iff. split.
    - destruct t; [vm_compute in Hlen; discriminate Hlen | reflexivity].
    - apply Z.ltb_lt. exact Hlen. }
  assert (Hnext : Observe.after_sweep (Browser.wait_for_selector page 0) None
                  = Some t)
    by (unfold Observe.after_sweep; now rewrite Hfv).
  destruct (RetryFacts.first_visible_split _ _ _ _ Hfv)
    as (pre & post & Hsel & Hpre & Hs).
  split.
  - rewrite (FetchFacts.fetch_content_value page Hok).
    cbn [List.seq ContentProcessor.max_retries].
    rewrite RetryFacts.attempts_value_cons. cbv zeta.
    rewrite Hnext, Hsig. reflexivity.
  - destruct Hok as (Hl & Hg & _).
    rewrite (FetchFacts.fetch_content_trace page Hl Hg).
    cbn [List.seq ContentProcessor.max_retries].
    rewrite RetryFacts.attempts_trace_cons. cbv zeta.
    rewrite Hnext, Hsig, List.app_nil_r.
    rewrite Hsel.
    rewrite (FetchFacts.try_selectors_found
               (Browser.wait_for_selector page 0) s t post None pre Hpre Hs).
    cbn [trace_of fst].
    unfold Measure.attempts_made, Measure.retry_sleeps,
      Observe.matched_selector.
    cbn [List.filter Measure.is_attempt Measure.is_retry_sleep
           Observe.matched_selector_from].
    rewrite FetchFacts.matched_sweep_log.
    unfold Observe.sweep_log.
    rewrite !List.filter_app.
    assert (Hnone :
              forall l : list string,
                List.filter Measure.is_attempt
                  (List.flat_map
                     (fun x => [ContentProcessor.Trying x;
                                ContentProcessor.NotFound x]) l) = []
                /\ List.filter Measure.is_retry_sleep
                     (List.flat_map
                        (fun x => [ContentProcessor.Trying x;
                                   ContentProcessor.NotFound x]) l) = []).
    { induction l as [|x l [I1 I2]]; [split; reflexivity|].
      simpl. split; assumption. }
    destruct (Hnone pre) as [-> ->]. simpl. auto.
Qed.

(** X3 on the sample page of 104 characters. *)
Lemma fetch_stops_at_first_significant_text_witness :
  let fetch :=
    ContentProcessor.fetch_content (Samples.body_only Samples.text104) in
  value_of fetch = Ret (Some Samples.text104)
  /\ Measure.attempts_made (trace_of fetch) = 1%nat
  /\ Measure.retry_sleeps (trace_of fetch) = 0%nat
  /\ Observe.matched_selector (trace_of fetch) = Some "body".
Proof.
  apply (fetch_stops_at_first_significant_text
           (Samples.body_only Samples.text104) "body" Samples.text104).
  - repeat split; reflexivity.
  - reflexivity.
  - vm_compute. reflexivity.
Defined.

(** X4.  A text the fetch returns is never made up and never survives a
    broken session: the launch, the navigation, the title read and the
    teardown all went through, and the text is what one of the 7
    selectors answered in one of the 3 attempts. *)
Theorem fetched_text_is_genuine (page : Browser.Page) (c : string) :
  value_of (ContentProcessor.fetch_content page) = Ret (Some c) ->
  Observe.session_ok page
  /\ exists attempt selector,
      (attempt < 3)%nat
      /\ List.In selector ContentProcessor.selectors
      /\ Browser.wait_for_selector page attempt selector
         = Browser.Visible c.
Proof.
  intros H.
  assert (Hok : Observe.session_ok page).
  { unfold ContentProcessor.fetch_content in H. unfold Observe.session_ok.
    destruct (Browser.launch_ok page); [|discriminate H].
    destruct (Browser.goto_ok page); [|discriminate H].
    simpl negb in H. cbv iota in H.
    rewrite MFacts.value_bind in H.
    destruct (value_of (ContentProcessor.attempts page _ None))
      as [[c'|]|e]; try discriminate H.
    destruct (Browser.title_ok page); [|discriminate H].
    destruct (Browser.close_ok page); [|discriminate H].
    auto. }
  split; [exact Hok|].
  rewrite (FetchFacts.fetch_content_value page Hok) in H.
  destruct (RetryFacts.attempts_value_origin page c _ _ H)
    as [Hc | (att & sel & Hatt & Hin & Hv)]; [discriminate Hc|].
  exists att, sel. repeat split; [|exact Hin | exact Hv].
  apply List.in_seq in Hatt. unfold ContentProcessor.max_retries in Hatt.
  lia.
Qed.

(** X4 on the sample page of 40 characters. *)
Lemma fetched_text_is_genuine_witness :
  Observe.session_ok (Samples.body_only Samples.text40)
  /\ exists attempt selector,
      (attempt < 3)%nat
      /\ List.In selector ContentProcessor.selectors
      /\ Browser.wait_for_selector (Samples.body_only Samples.text40)
                                   attempt selector
         = Browser.Visible Samples.text40.
Proof.
  apply (fetched_text_is_genuine
           (Samples.body_only Samples.text40) Samples.text40).
  vm_compute. reflexivity.
Defined.

(** ** The batch loops in general *)

Module TurnFacts.

Import Measure.

Lemma flat_map_map {A B C} (g : A -> B) (f : B -> list C) (l : list A) :
  List.flat_map f (List.map g l) = List.flat_map (fun a => f (g a)) l.
Proof.
  induction l as [|a l IH]; [reflexivity|]. simpl. now rewrite IH.
Qed.

Lemma flat_map_const {A B} (f : A -> list B) (b : B) (l : list A) :
  (forall a, List.In a l -> f a = [b]) ->
  List.flat_map f l = List.repeat b (List.length l).
Proof.
  induction l as [|a l IH]; intros H; [reflexivity|].
  simpl. rewrite (H a) by now left.
  rewrite IH; [reflexivity|]. intros x Hx. apply H. now right.
Qed.

(** The number of batches: between [n / batch_size] rounded up and
    itself. *)
Lemma batch_count_bounds (n batch_size : Z) :
  (0 < batch_size)%Z -> (0 <= n)%Z ->
  (0 <= batch_count n batch_size
   /\ n <= batch_count n batch_size * batch_size
   /\ batch_count n batch_size * batch_size < n + batch_size)%Z.
Proof.
  intros Hb Hn. unfold batch_count.
  pose proof (Z.div_mod (n + batch_size - 1) batch_size ltac:(lia)) as Hdm.
  pose proof (Z.mod_pos_bound (n + batch_size - 1) batch_size Hb) as Hmod.
  assert (0 <= (n + batch_size - 1) / batch_size)%Z
    by (apply Z.div_pos; lia).
  repeat split; [assumption | nia | nia].
Qed.

Lemma range_len_is_batch_count (n batch_size : Z) :
  (0 < batch_size)%Z -> (0 <= n)%Z ->
  Py.range_len 0 n batch_size = batch_count n batch_size.
Proof.
  intros Hb Hn. unfold Py.range_len, batch_count.
  replace (0 <? batch_size)%Z with true by (symmetry; apply Z.ltb_lt; lia).
  destruct (Z.ltb_spec 0 n) as [Hpos | Hzero].
  - replace (n + batch_size - 1)%Z with (n - 1 - 0 + 1 * batch_size)%Z
      by lia.
    rewrite Z.div_add by lia. lia.
  - replace n with 0%Z by lia. symmetry. apply Z.div_small. lia.
Qed.

Section Turns.

Variable C : Type.
Variable task : string -> list C.
Variable urls : list string.
Variable batch_size : Z.
Variable delay : Q.

Lemma announcements_tasks (l : list string) (rest : list (Asyncio.event C)) :
  announcements
    (List.map (fun url => Asyncio.Task url (task url)) l ++ rest)
  = announcements rest.
Proof. induction l as [|u l IH]; [reflexivity | exact IH]. Qed.

Lemma sleeps_tasks (l : list string) (rest : list (Asyncio.event C)) :
  Observe.sleeps
    (List.map (fun url => Asyncio.Task url (task url)) l ++ rest)
  = Observe.sleeps rest.
Proof. induction l as [|u l IH]; [reflexivity | exact IH]. Qed.

Lemma batches_of_tasks (l : list string) (rest : list (Asyncio.event C)) :
  batches_of
    (List.map (fun url => Asyncio.Task url (task url)) l ++ rest)
  = batches_of rest.
Proof. induction l as [|u l IH]; [reflexivity | exact IH]. Qed.

Lemma leading_tasks_tasks (l : list string)
      (rest : list (Asyncio.event C)) :
  leading_tasks
    (List.map (fun url => Asyncio.Task url (task url)) l ++ rest)
  = l ++ leading_tasks rest.
Proof.
  induction l as [|u l IH]; [reflexivity|]. simpl. now rewrite IH.
Qed.

Lemma leading_tasks_turns (indices : list Z) :
  leading_tasks
    (List.flat_map (turn task urls batch_size delay) indices) = [].
Proof. destruct indices; reflexivity. Qed.

Lemma announcements_turns (indices : list Z) :
  announcements (List.flat_map (turn task urls batch_size delay) indices)
  = List.map
      (fun i => ((i / batch_size + 1)%Z,
                 batch_count (Py.len urls) batch_size))
      indices.
Proof.
  induction indices as [|i indices IH]; [reflexivity|].
  cbn [List.flat_map List.map]. unfold turn at 1.
  cbn [List.app announcements]. f_equal.
  rewrite <- List.app_assoc, announcements_tasks.
  destruct (i + batch_size <? Py.len urls)%Z; exact IH.
Qed.

Lemma sleeps_turns (indices : list Z) :
  Observe.sleeps (List.flat_map (turn task urls batch_size delay) indices)
  = List.flat_map
      (fun i => if (i + batch_size <? Py.len urls)%Z then [delay] else [])
      indices.
Proof.
  induction indices as [|i indices IH]; [reflexivity|].
  cbn [List.flat_map]. unfold turn at 1.
  cbn [List.app Observe.sleeps].
  rewrite <- List.app_assoc, sleeps_tasks.
  destruct (i + batch_size <? Py.len urls)%Z; cbn; now rewrite IH.
Qed.

Lemma batches_of_turns (indices : list Z) :
  batches_of (List.flat_map (turn task urls batch_size delay) indices)
  = List.map (fun i => Py.slice urls i (i + batch_size)) indices.
Proof.
  induction indices as [|i indices IH]; [reflexivity|].
  cbn [List.flat_map List.map]. unfold turn at 1.
  cbn [List.app batches_of]. rewrite <- List.app_assoc. f_equal.
  - rewrite leading_tasks_tasks.
    destruct (i + batch_size <? Py.len urls)%Z; cbn [List.app leading_tasks];
      rewrite leading_tasks_turns; apply List.app_nil_r.
  - rewrite batches_of_tasks.
    destruct (i + batch_size <? Py.len urls)%Z; exact IH.
Qed.

Hypothesis positive : (0 < batch_size)%Z.

(** The indices the loop visits. *)
Lemma range_indices :
  Py.range 0 (Py.len urls) batch_size
  = Ret (visited (Py.len urls) batch_size).
Proof.
  unfold Py.range, visited.
  replace (batch_size =? 0)%Z with false by (symmetry; apply Z.eqb_neq; lia).
  rewrite range_len_is_batch_count by (unfold Py.len; lia).
  reflexivity.
Qed.

(** The announcements count up from 1 to the number of batches. *)
Lemma announcements_count_up :
  announcements
    (List.flat_map (turn task urls batch_size delay)
                 (visited (Py.len urls) batch_size))
  = List.map
      (fun k => ((Z.of_nat k + 1)%Z, batch_count (Py.len urls) batch_size))
      (List.seq 0 (Z.to_nat (batch_count (Py.len urls) batch_size))).
Proof.
  unfold visited. rewrite announcements_turns, List.map_map.
  apply List.map_ext. intros k. f_equal.
  rewrite Z.add_0_l, Z.div_mul by lia. reflexivity.
Qed.

(** One sleep after every batch but the last. *)
Lemma sleeps_between_batches :
  Observe.sleeps
    (List.flat_map (turn task urls batch_size delay)
                 (visited (Py.len urls) batch_size))
  = List.repeat delay
      (Z.to_nat (batch_count (Py.len urls) batch_size) - 1).
Proof.
  unfold visited. rewrite sleeps_turns, flat_map_map.
  pose proof (batch_count_bounds (Py.len urls) batch_size positive
                ltac:(unfold Py.len; lia)) as (HT0 & HTn & HTb).
  set (T := batch_count (Py.len urls) batch_size) in *.
  destruct (Z.to_nat T) as [|m] eqn:Hm; [reflexivity|].
  replace (S m - 1)%nat with m by lia.
  rewrite List.seq_S, List.flat_map_app. cbn [List.flat_map Nat.add].
  replace (0 + Z.of_nat m * batch_size + batch_size <? Py.len urls)%Z
    with false by (symmetry; apply Z.ltb_ge; nia).
  rewrite List.app_nil_r.
  rewrite (flat_map_const _ delay).
  - now rewrite List.length_seq.
  - intros k Hk. apply List.in_seq in Hk.
    replace (0 + Z.of_nat k * batch_size + batch_size <? Py.len urls)%Z
      with true by (symmetry; apply Z.ltb_lt; nia).
    reflexivity.
Qed.

(** The batches are the consecutive windows of the list: they add up
    to it, and each holds between 1 and [batch_size] URLs. *)
Lemma batches_partition :
  let batches :=
    batches_of (List.flat_map (turn task urls batch_size delay)
                              (visited (Py.len urls) batch_size)) in
  List.concat batches = urls
  /\ List.Forall
       (fun b => (1 <= List.length b <= Z.to_nat batch_size)%nat) batches
  /\ List.length batches
     = Z.to_nat (batch_count (Py.len urls) batch_size).
Proof.
  cbv zeta. rewrite batches_of_turns.
  destruct (BatchFacts.batches_cover urls batch_size positive)
    as [idx [Hrange Hcover]].
  rewrite range_indices in Hrange. injection Hrange as <-.
  split; [|split].
  - rewrite <- List.flat_map_concat_map. exact Hcover.
  - apply List.Forall_map, List.Forall_forall. intros i Hi.
    unfold visited in Hi. apply List.in_map_iff in Hi.
    destruct Hi as [k [<- Hk]]. apply List.in_seq in Hk.
    pose proof (batch_count_bounds (Py.len urls) batch_size positive
                  ltac:(unfold Py.len; lia)) as (HT0 & HTn & HTb).
    rewrite BatchFacts.slice_window by lia.
    assert (Hlt : (Z.of_nat k * batch_size < Py.len urls)%Z) by nia.
    rewrite List.length_firstn, List.length_skipn.
    unfold Py.len in Hlt. lia.
  - unfold visited. now rewrite !List.length_map, List.length_seq.
Qed.

End Turns.

Lemma main_turn_is_turn (browser : string -> Browser.Page)
      (urls : list string) (batch_size : Z) (delay : Q) (i : Z) :
  Observe.main_turn browser urls batch_size delay i
  = turn (fun url => trace_of (Main.process_url browser url))
         urls batch_size delay i.
Proof. reflexivity. Qed.

Lemma batch_turn_is_turn (html_parser : string -> result Bs4.node)
      (env : AppConfig.Environ) (browser : string -> Browser.Page)
      (DEFAULT_DELAY : Q) (urls : list string) (batch_size : Z) (i : Z) :
  Observe.batch_turn html_parser env browser DEFAULT_DELAY urls
                     batch_size i
  = turn (fun url =>
            trace_of (ContentProcessor.process_url
                        html_parser env (browser url) url))
         urls batch_size DEFAULT_DELAY i.
Proof. reflexivity. Qed.

(** The trace of [Main.process_batch] under a positive batch size. *)
Lemma main_trace (browser : string -> Browser.Page) (urls : list string)
      (batch_size : Z) (delay : Q) :
  (0 < batch_size)%Z ->
  trace_of (Main.process_batch browser urls batch_size delay)
  = List.flat_map
      (turn (fun url => trace_of (Main.process_url browser url))
            urls batch_size delay)
      (visited (Py.len urls) batch_size).
Proof.
  intros Hb. unfold Main.process_batch.
  rewrite (range_indices urls batch_size Hb).
  unfold lift, bind. rewrite BatchFacts.main_loop_run. cbn [trace_of fst].
  apply List.flat_map_ext. intros i. apply main_turn_is_turn.
Qed.

(** The trace of [BatchProcessor.process_all] under a positive batch
    size. *)
Lemma process_all_trace (html_parser : string -> result Bs4.node)
      (env : AppConfig.Environ) (browser : string -> Browser.Page)
      (DEFAULT_DELAY : Q) (urls : list string) (batch_size : Z) :
  (0 < batch_size)%Z ->
  trace_of (BatchProcessor.process_all
              html_parser env browser DEFAULT_DELAY urls batch_size)
  = List.flat_map
      (turn (fun url =>
               trace_of (ContentProcessor.process_url
                           html_parser env (browser url) url))
            urls batch_size DEFAULT_DELAY)
      (visited (Py.len urls) batch_size).
Proof.
  intros Hb. unfold BatchProcessor.process_all.
  replace (batch_size =? 0)%Z with false by (symmetry; apply Z.eqb_neq; lia).
  rewrite (range_indices urls batch_size Hb).
  unfold lift, bind. rewrite BatchFacts.process_all_loop_run.
  cbn [trace_of fst].
  apply List.flat_map_ext. intros i. apply batch_turn_is_turn.
Qed.

End TurnFacts.

(** X5.  Under a batch size of at least 1 the batch announcements of a
    run count up from 1 to the announced total, and the total is the
    number of batches: the URL count divided by the batch size,
    rounded up.  This holds for [Main.process_batch] and for
    [BatchProcessor.process_all]. *)
Theorem batch_announcements_count_up
        (browser : string -> Browser.Page) (urls : list string)
        (batch_size : Z) (delay : Q) :
  (0 < batch_size)%Z ->
  let total := Measure.batch_count (Py.len urls) batch_size in
  let expected :=
    List.map (fun k => ((Z.of_nat k + 1)%Z, total))
             (List.seq 0 (Z.to_nat total)) in
  Measure.announcements
    (trace_of (Main.process_batch browser urls batch_size delay))
  = expected
  /\ (forall html_parser env DEFAULT_DELAY,
         Measure.announcements
           (trace_of (BatchProcessor.process_all
                        html_parser env browser DEFAULT_DELAY
                        urls batch_size))
         = expected).
Proof.
  intros Hb total expected. subst total expected. split.
  - rewrite (TurnFacts.main_trace browser urls batch_size delay Hb).
    apply TurnFacts.announcements_count_up. exact Hb.
  - intros html_parser env DEFAULT_DELAY.
    rewrite (TurnFacts.process_all_trace html_parser env browser
               DEFAULT_DELAY urls batch_size Hb).
    apply TurnFacts.announcements_count_up. exact Hb.
Qed.

(** X5 on five URLs in batches of two: batches 1, 2 and 3 of 3. *)
Lemma batch_announcements_count_up_witness :
  Measure.announcements
    (trace_of (Main.process_batch Samples.browser40 Samples.five_urls 2
                                  (2 # 1)))
  = [(1, 3); (2, 3); (3, 3)]%Z.
Proof.
  apply (batch_announcements_count_up
           Samples.browser40 Samples.five_urls 2 (2 # 1)).
  reflexivity.
Defined.

(** X6.  Under a batch size of at least 1 a run sleeps once after every
    batch but the last, each time for the configured delay: the sleeps
    number one less than the batches, and none occurs for an empty URL
    list. *)
Theorem one_sleep_between_batches
        (browser : string -> Browser.Page) (urls : list string)
        (batch_size : Z) (delay : Q) :
  (0 < batch_size)%Z ->
  let pauses :=
    (Z.to_nat (Measure.batch_count (Py.len urls) batch_size) - 1)%nat in
  Observe.sleeps
    (trace_of (Main.process_batch browser urls batch_size delay))
  = List.repeat delay pauses
  /\ (forall html_parser env DEFAULT_DELAY,
         Observe.sleeps
           (trace_of (BatchProcessor.process_all
                        html_parser env browser DEFAULT_DELAY
                        urls batch_size))
         = List.repeat DEFAULT_DELAY pauses).
Proof.
  intros Hb pauses. subst pauses. split.
  - rewrite (TurnFacts.main_trace browser urls batch_size delay Hb).
    apply TurnFacts.sleeps_between_batches. exact Hb.
  - intros html_parser env DEFAULT_DELAY.
    rewrite (TurnFacts.process_all_trace html_parser env browser
               DEFAULT_DELAY urls batch_size Hb).
    apply TurnFacts.sleeps_between_batches. exact Hb.
Qed.

(** X6 on five URLs one at a time: four sleeps. *)
Lemma one_sleep_between_batches_witness :
  Observe.sleeps
    (trace_of (Main.process_batch Samples.browser40 Samples.five_urls 1
                                  (2 # 1)))
  = [(2 # 1)%Q; (2 # 1)%Q; (2 # 1)%Q; (2 # 1)%Q].
Proof.
  apply (one_sleep_between_batches
           Samples.browser40 Samples.five_urls 1 (2 # 1)).
  reflexivity.
Defined.

(** X7.  Under a batch size of at least 1 the tasks of a run are the
    input URLs in input order, grouped into consecutive batches: the
    batches add up to the URL list, and each holds at least 1 and at
    most [batch_size] URLs, so no more than [batch_size] fetches run at
    once. *)
Theorem tasks_run_in_bounded_batches
        (browser : string -> Browser.Page) (urls : list string)
        (batch_size : Z) (delay : Q) :
  (0 < batch_size)%Z ->
  let well_grouped (batches : list (list string)) :=
    List.concat batches = urls
    /\ List.Forall
         (fun b => (1 <= List.length b <= Z.to_nat batch_size)%nat)
         batches
    /\ List.length batches
       = Z.to_nat (Measure.batch_count (Py.len urls) batch_size) in
  well_grouped
    (Measure.batches_of
       (trace_of (Main.process_batch browser urls batch_size delay)))
  /\ (forall html_parser env DEFAULT_DELAY,
         well_grouped
           (Measure.batches_of
              (trace_of (BatchProcessor.process_all
                           html_parser env browser DEFAULT_DELAY
                           urls batch_size)))).
Proof.
  intros Hb well_grouped. subst well_grouped. cbv beta. split.
  - rewrite (TurnFacts.main_trace browser urls batch_size delay Hb).
    apply TurnFacts.batches_partition. exact Hb.
  - intros html_parser env DEFAULT_DELAY.
    rewrite (TurnFacts.process_all_trace html_parser env browser
               DEFAULT_DELAY urls batch_size Hb).
    apply TurnFacts.batches_partition. exact Hb.
Qed.

(** X7 on five URLs in batches of two. *)
Lemma tasks_run_in_bounded_batches_witness :
  List.concat
    (Measure.batches_of
       (trace_of (Main.process_batch Samples.browser40 Samples.five_urls
                                     2 (2 # 1))))
  = Samples.five_urls.
Proof.
  apply (tasks_run_in_bounded_batches
           Samples.browser40 Samples.five_urls 2 (2 # 1)).
  reflexivity.
Defined.

(** X8.  A batch size below 1 makes a run do nothing: no batch is
    announced, no URL is fetched and no sleep occurs.  With a negative
    batch size both schedulers return the empty list; with 0,
    [Main.process_batch] raises [ValueError] and
    [BatchProcessor.process_all] raises [ZeroDivisionError]. *)
Theorem non_positive_batch_size_runs_nothing
        (browser : string -> Browser.Page) (urls : list string)
        (batch_size : Z) (delay : Q) :
  (batch_size <= 0)%Z ->
  Main.process_batch browser urls batch_size delay
  = ([], if (batch_size =? 0)%Z then Raise "ValueError" else Ret [])
  /\ (forall html_parser env DEFAULT_DELAY,
         BatchProcessor.process_all
           html_parser env browser DEFAULT_DELAY urls batch_size
         = ([], if (batch_size =? 0)%Z then Raise "ZeroDivisionError"
                else Ret [])).
Proof.
  intros Hb.
  assert (Hrange : (batch_size =? 0)%Z = false ->
                   Py.range 0 (Py.len urls) batch_size = Ret []).
  { intros Hz. unfold Py.range, Py.range_len. rewrite Hz.
    replace (0 <? batch_size)%Z with false
      by (symmetry; apply Z.ltb_ge; lia).
    replace (Py.len urls <? 0)%Z with false
      by (symmetry; apply Z.ltb_ge; unfold Py.len; lia).
    reflexivity. }
  split.
  - unfold Main.process_batch.
    destruct (batch_size =? 0)%Z eqn:Hz.
    + unfold Py.range. rewrite Hz. reflexivity.
    + rewrite (Hrange eq_refl). reflexivity.
  - intros html_parser env DEFAULT_DELAY.
    unfold BatchProcessor.process_all.
    destruct (batch_size =? 0)%Z eqn:Hz; [reflexivity|].
    rewrite (Hrange eq_refl). reflexivity.
Qed.

(** X8 on five URLs and the batch size -2. *)
Lemma non_positive_batch_size_runs_nothing_witness :
  Main.process_batch Samples.browser40 Samples.five_urls (-2) (2 # 1)
  = ([], Ret []).
Proof.
  apply (non_positive_batch_size_runs_nothing
           Samples.browser40 Samples.five_urls (-2) (2 # 1)).
  vm_compute. discriminate.
Defined.

Module KeptFacts.

Lemma kept_and_raising (html_parser : string -> result Bs4.node)
      (env : AppConfig.Environ) (browser : string -> Browser.Page)
      (urls : list string) :
  (List.length (Observe.kept_records html_parser env browser urls)
   + Measure.raising html_parser env browser urls
   = List.length urls)%nat.
Proof.
  unfold Observe.kept_records, Measure.raising.
  induction urls as [|u urls IH]; [reflexivity|].
  cbn [List.map List.filter].
  destruct (value_of (ContentProcessor.process_url
                        html_parser env (browser u) u)) as [r|e];
    cbn [is_exception BatchProcessor.drop_exceptions List.length]; lia.
Qed.

End KeptFacts.

(** X9.  Under a batch size of at least 1,
    [BatchProcessor.process_all] returns, in input order, the records
    of exactly those URLs whose processing did not raise; a URL whose
    processing raised has no record, so the result is shorter than the
    input by the number of such URLs. *)
Theorem process_all_keeps_what_did_not_raise
        (html_parser : string -> result Bs4.node)
        (env : AppConfig.Environ) (browser : string -> Browser.Page)
        (DEFAULT_DELAY : Q) (urls : list string) (batch_size : Z) :
  (0 < batch_size)%Z ->
  exists results,
    value_of (BatchProcessor.process_all
                html_parser env browser DEFAULT_DELAY urls batch_size)
    = Ret results
    /\ results
       = BatchProcessor.drop_exceptions
           (List.map
              (fun u =>
                 value_of (ContentProcessor.process_url
                             html_parser env (browser u) u))
              urls)
    /\ (List.length results
        + Measure.raising html_parser env browser urls
        = List.length urls)%nat.
Proof.
  intros Hb.
  exists (Observe.kept_records html_parser env browser urls).
  split; [|split].
  - unfold BatchProcessor.process_all.
    replace (batch_size =? 0)%Z with false
      by (symmetry; apply Z.eqb_neq; lia).
    rewrite (TurnFacts.range_indices urls batch_size Hb).
    unfold lift, bind.
    rewrite BatchFacts.process_all_loop_run. cbn [value_of snd List.app].
    f_equal.
    rewrite List.flat_map_concat_map, <- List.map_map,
      <- List.flat_map_concat_map.
    rewrite BatchFacts.kept_records_flat_map.
    rewrite <- List.flat_map_concat_map.
    destruct (BatchFacts.batches_cover urls batch_size Hb)
      as [idx [Hrange Hcover]].
    rewrite (TurnFacts.range_indices urls batch_size Hb) in Hrange.
    injection Hrange as <-. now rewrite Hcover.
  - reflexivity.
  - apply KeptFacts.kept_and_raising.
Qed.

(** X9 on one URL whose markup the parser rejects: nothing is
    returned. *)
Lemma process_all_keeps_what_did_not_raise_witness :
  exists results,
    value_of (BatchProcessor.process_all
                Samples.rejecting_parser Samples.env0 Samples.browser104
                (2 # 1) [Samples.url_a] 1)
    = Ret results
    /\ results
       = BatchProcessor.drop_exceptions
           (List.map
              (fun u =>
                 value_of (ContentProcessor.process_url
                             Samples.rejecting_parser Samples.env0
                             (Samples.browser104 u) u))
              [Samples.url_a])
    /\ (List.length results
        + Measure.raising Samples.rejecting_parser Samples.env0
                          Samples.browser104 [Samples.url_a]
        = List.length [Samples.url_a])%nat.
Proof.
  apply (process_all_keeps_what_did_not_raise
           Samples.rejecting_parser Samples.env0 Samples.browser104
           (2 # 1) [Samples.url_a] 1).
  reflexivity.
Defined.

(** ** Analysis and extraction results *)

Module MetricFacts.

Import ContentProcessor.

Lemma readability_value (text : string) :
  exists q, _calculate_readability text = Ret q /\ (0 <= q)%Q.
Proof.
  unfold _calculate_readability.
  pose proof (PyFacts.split_length "." text) as Hs.
  destruct (1 <? Py.len (Py.split "." text))%Z.
  - rewrite PyFacts.truediv_nonzero by lia.
    eexists. split; [reflexivity|].
    apply Qle_shift_div_l.
    + change 0%Q with (inject_Z 0). rewrite <- Zlt_Qlt. lia.
    + rewrite Qmult_0_l. change 0%Q with (inject_Z 0).
      rewrite <- Zle_Qle. unfold Py.len. lia.
  - exists 0%Q. split; [reflexivity | apply Qle_refl].
Qed.

Lemma structure_value (text : string) :
  exists q, _analyze_structure text = Ret q /\ (0 < q)%Q.
Proof.
  unfold _analyze_structure.
  pose proof (PyFacts.split_length "." text) as Hs.
  pose proof (PyFacts.split_length (nl ++ nl) text) as Hp.
  replace (0 <? Py.len (Py.split "." text))%Z with true
    by (symmetry; apply Z.ltb_lt; lia).
  rewrite PyFacts.truediv_nonzero by lia.
  eexists. split; [reflexivity|].
  apply Qlt_shift_div_l.
  - change 0%Q with (inject_Z 0). rewrite <- Zlt_Qlt. lia.
  - rewrite Qmult_0_l. change 0%Q with (inject_Z 0).
    rewrite <- Zlt_Qlt. lia.
Qed.

Lemma complex_words_bound (text : string) :
  (0 <= _count_complex_words text <= _count_words text)%Z.
Proof.
  unfold _count_complex_words, _count_words, count_in, Py.len.
  rewrite PyFacts.split_ws_lower.
  pose proof (List.filter_length_le
                (fun word => Py.mem word complex_words)
                (List.map Py.lower (Py.split_ws text))) as H.
  rewrite List.length_map in H. lia.
Qed.

Lemma sentiment_labels (text : string) :
  List.In (_get_basic_sentiment text) ["positive"; "negative"; "neutral"].
Proof.
  unfold _get_basic_sentiment.
  destruct (_ <? _)%Z; [simpl; auto|].
  destruct (_ <? _)%Z; simpl; auto.
Qed.

(** Once the markup is parsed, the analysis returns: no later step
    raises, whatever the environment holds. *)
Lemma analyze_content_returns (html_parser : string -> result Bs4.node)
      (env : AppConfig.Environ) (content : string) (soup : Bs4.node) :
  html_parser content = Ret soup ->
  exists a,
    analyze_content html_parser env content = Ret a
    /\ (0 <= complexity_score a <= word_count a)%Z
    /\ List.In (sentiment a) ["positive"; "negative"; "neutral"]
    /\ (0 <= readability_score a)%Q
    /\ (0 < structure_score a)%Q
    /\ (0 <= section_count a)%Z
    /\ (0 <= image_count a)%Z.
Proof.
  intros Hp. unfold analyze_content. rewrite Hp.
  destruct (_extract_text soup) as [text pruned].
  rewrite AnalysisFacts.api_analysis_is_basic.
  unfold _get_basic_analysis.
  destruct (readability_value text) as [r [-> Hr]].
  destruct (structure_value text) as [st [-> Hst]].
  eexists. split; [reflexivity|]. cbn.
  split; [apply complex_words_bound|].
  split; [apply sentiment_labels|].
  split; [exact Hr|]. split; [exact Hst|].
  unfold _count_sections, _count_images, Py.len. lia.
Qed.

End MetricFacts.

(** X10.  Whenever the parser accepts the markup, the analysis returns
    metrics, with or without an API key in the environment, and the
    metrics are sane: the complexity score lies between 0 and the word
    count, the sentiment is one of the three labels, the readability
    score is not negative, the structure score is positive, and the
    two counts are not negative. *)
Theorem analysis_returns_sane_metrics
        (html_parser : string -> result Bs4.node)
        (env : AppConfig.Environ) (content : string) (soup : Bs4.node) :
  html_parser content = Ret soup ->
  exists a,
    ContentProcessor.analyze_content html_parser env content = Ret a
    /\ (0 <= ContentProcessor.complexity_score a
        <= ContentProcessor.word_count a)%Z
    /\ List.In (ContentProcessor.sentiment a)
               ["positive"; "negative"; "neutral"]
    /\ (0 <= ContentProcessor.readability_score a)%Q
    /\ (0 < ContentProcessor.structure_score a)%Q
    /\ (0 <= ContentProcessor.section_count a)%Z
    /\ (0 <= ContentProcessor.image_count a)%Z.
Proof. apply MetricFacts.analyze_content_returns. Qed.

(** X10 on the sample markup, without an API key. *)
Lemma analysis_returns_sane_metrics_witness :
  exists a,
    ContentProcessor.analyze_content
      Samples.links_parser Samples.env0 Samples.markup_links = Ret a
    /\ (0 <= ContentProcessor.complexity_score a
        <= ContentProcessor.word_count a)%Z
    /\ List.In (ContentProcessor.sentiment a)
               ["positive"; "negative"; "neutral"]
    /\ (0 <= ContentProcessor.readability_score a)%Q
    /\ (0 < ContentProcessor.structure_score a)%Q
    /\ (0 <= ContentProcessor.section_count a)%Z
    /\ (0 <= ContentProcessor.image_count a)%Z.
Proof.
  apply (analysis_returns_sane_metrics
           Samples.links_parser Samples.env0 Samples.markup_links
           Samples.soup_links).
  reflexivity.
Defined.

(** X11.  When the fetch yields a non-empty text,
    [ContentProcessor.process_url] calls the metadata extractor and
    then the analyzer on that same text.  If the parser rejects the
    text, the exception of the extractor leaves [process_url] and the
    analyzer is never called; if the parser accepts it, a record is
    returned that carries the URL asked for. *)
Theorem process_url_call_sequence
        (html_parser : string -> result Bs4.node)
        (env : AppConfig.Environ) (page : Browser.Page)
        (self_url c : string) :
  value_of (ContentProcessor.fetch_content page) = Ret (Some c) ->
  c <> "" ->
  let run := ContentProcessor.process_url html_parser env page self_url in
  let fetched :=
    ContentProcessor.FetchContent
      self_url (trace_of (ContentProcessor.fetch_content page)) in
  match html_parser c with
  | Raise e =>
      value_of run = Raise e
      /\ trace_of run = [fetched; ContentProcessor.ExtractMetadata c]
  | Ret _ =>
      (exists m a,
          value_of run = Ret (ContentProcessor.Processed m a)
          /\ ContentProcessor.url m = self_url)
      /\ trace_of run
         = [fetched; ContentProcessor.ExtractMetadata c;
            ContentProcessor.AnalyzeContent c]
  end.
Proof.
  intros Hf Hc run fetched. subst run fetched.
  destruct c as [|ch c]; [contradiction|].
  destruct (html_parser (String ch c)) as [soup|e] eqn:Hp.
  - destruct (MetricFacts.analyze_content_returns
                html_parser env (String ch c) soup Hp) as [a [Ha _]].
    assert (Hm : exists m,
               ContentProcessor.extract_metadata
                 html_parser env self_url (String ch c) = Ret m
               /\ ContentProcessor.url m = self_url).
    { unfold ContentProcessor.extract_metadata. rewrite Hp.
      eexists. split; reflexivity. }
    destruct Hm as [m [Hm Hurl]].
    assert (Hrun :
              ContentProcessor.process_url html_parser env page self_url
              = ([ContentProcessor.FetchContent
                    self_url
                    (trace_of (ContentProcessor.fetch_content page));
                  ContentProcessor.ExtractMetadata (String ch c);
                  ContentProcessor.AnalyzeContent (String ch c)],
                 Ret (ContentProcessor.Processed m a))).
    { unfold ContentProcessor.process_url.
      rewrite UrlFacts.call_fetch_eq, Hf.
      unfold bind at 1. cbn [Py.truthy negb]. rewrite Hm, Ha.
      reflexivity. }
    rewrite Hrun. split; [|reflexivity].
    exists m, a. split; [reflexivity | exact Hurl].
  - assert (Hm : ContentProcessor.extract_metadata
                   html_parser env self_url (String ch c) = Raise e).
    { unfold ContentProcessor.extract_metadata. now rewrite Hp. }
    assert (Hrun :
              ContentProcessor.process_url html_parser env page self_url
              = ([ContentProcessor.FetchContent
                    self_url
                    (trace_of (ContentProcessor.fetch_content page));
                  ContentProcessor.ExtractMetadata (String ch c)],
                 Raise e)).
    { unfold ContentProcessor.process_url.
      rewrite UrlFacts.call_fetch_eq, Hf.
      unfold bind at 1. cbn [Py.truthy negb]. rewrite Hm.
      reflexivity. }
    rewrite Hrun. split; reflexivity.
Qed.

(** X11 on the page of 104 characters and the rejecting parser. *)
Lemma process_url_call_sequence_witness :
  value_of (ContentProcessor.process_url
              Samples.rejecting_parser Samples.env0
              (Samples.body_only Samples.text104) Samples.url_a)
  = Raise "ParserRejectedMarkup"
  /\ trace_of (ContentProcessor.process_url
                 Samples.rejecting_parser Samples.env0
                 (Samples.body_only Samples.text104) Samples.url_a)
     = [ContentProcessor.FetchContent
          Samples.url_a
          (trace_of (ContentProcessor.fetch_content
                       (Samples.body_only Samples.text104)));
        ContentProcessor.ExtractMetadata Samples.text104].
Proof.
  apply (process_url_call_sequence
           Samples.rejecting_parser Samples.env0
           (Samples.body_only Samples.text104) Samples.url_a
           Samples.text104).
  - vm_compute. reflexivity.
  - discriminate.
Defined.

(** ** Pruning the tree *)

Module PruneFacts.

Import Bs4.

(** Induction on a tree, with the property known for every child. *)
Lemma node_ind_strong (P : node -> Prop) :
  (forall t a cs, List.Forall P cs -> P (Tag t a cs)) ->
  (forall s, P (NavigableString s)) ->
  (forall s, P (Comment s)) ->
  forall n, P n.
Proof.
  intros HT HS HC. fix IH 1. intros [t a cs | s | s].
  - apply HT. induction cs as [|c cs IHcs]; constructor;
      [apply IH | exact IHcs].
  - apply HS.
  - apply HC.
Qed.

(** The children kept under a tag: those not named in [names], each
    pruned in turn. *)
Lemma decompose_all_tag (names : list string) (t : string)
      (a : list (string * string)) (cs : list node) :
  decompose_all names (Tag t a cs)
  = Tag t a
      (List.flat_map
         (fun c => if name_in names c then []
                   else [decompose_all names c])
         cs).
Proof.
  cbn [decompose_all]. f_equal.
  induction cs as [|c cs IH]; [reflexivity|].
  cbn [List.flat_map].
  destruct (name_in names c); [exact IH|].
  cbn [List.app]. f_equal. exact IH.
Qed.

(** Pruning changes neither the name nor the attributes of a node. *)
Lemma decompose_all_name (names hs : list string) (n : node) :
  name_in hs (decompose_all names n) = name_in hs n.
Proof. destruct n; reflexivity. Qed.

Lemma decompose_all_get (names : list string) (k : string) (n : node) :
  get k (decompose_all names n) = get k n.
Proof. destruct n; reflexivity. Qed.

Lemma descendants_tag (t : string) (a : list (string * string))
      (cs : list node) :
  descendants (Tag t a cs)
  = List.flat_map (fun c => c :: descendants c) cs.
Proof. reflexivity. Qed.

(** No node named in [names] is left in a pruned tree. *)
Lemma pruned_has_none (names : list string) :
  forall n,
    List.Forall (fun d => name_in names d = false)
                (descendants (decompose_all names n)).
Proof.
  apply node_ind_strong; [|constructor|constructor].
  intros t a cs Hcs. rewrite decompose_all_tag, descendants_tag.
  induction Hcs as [|c cs Hc Hcs IH]; [constructor|].
  cbn [List.flat_map].
  destruct (name_in names c) eqn:Hn; [exact IH|].
  cbn [List.app List.flat_map].
  constructor; [now rewrite decompose_all_name|].
  apply List.Forall_app. split; [exact Hc | exact IH].
Qed.

(** A predicate that looks only at the name and the attributes holds
    of no more nodes after pruning than before. *)
Lemma pruned_count (names : list string) (p : node -> bool) :
  (forall c, p (decompose_all names c) = p c) ->
  forall n,
    (List.length (List.filter p (descendants (decompose_all names n)))
     <= List.length (List.filter p (descendants n)))%nat.
Proof.
  intros Hp. apply node_ind_strong; [|simpl; lia|simpl; lia].
  intros t a cs Hcs. rewrite decompose_all_tag, !descendants_tag.
  induction Hcs as [|c cs Hc Hcs IH]; [simpl; lia|].
  cbn [List.flat_map].
  destruct (name_in names c).
  - cbn [List.app List.filter]. rewrite List.filter_app.
    destruct (p c); cbn [List.length];
      rewrite List.length_app; lia.
  - cbn [List.app List.flat_map List.filter].
    rewrite Hp, !List.filter_app.
    destruct (p c); cbn [List.length];
      rewrite !List.length_app; lia.
Qed.

(** Every node of a pruned tree comes from a node of the tree, with
    the same name and the same attributes. *)
Lemma pruned_origin (names : list string) :
  forall n d,
    List.In d (descendants (decompose_all names n)) ->
    exists d0,
      List.In d0 (descendants n)
      /\ (forall hs, name_in hs d = name_in hs d0)
      /\ (forall k, get k d = get k d0).
Proof.
  apply (node_ind_strong
           (fun n =>
              forall d,
                List.In d (descendants (decompose_all names n)) ->
                exists d0,
                  List.In d0 (descendants n)
                  /\ (forall hs, name_in hs d = name_in hs d0)
                  /\ (forall k, get k d = get k d0)));
    [|intros s d []|intros s d []].
  intros t a cs Hcs d. rewrite decompose_all_tag, !descendants_tag.
  induction Hcs as [|c cs Hc Hcs IH]; [intros []|].
  cbn [List.flat_map].
  assert (Hrest :
            (exists d0,
                List.In d0 (List.flat_map (fun c => c :: descendants c) cs)
                /\ (forall hs, name_in hs d = name_in hs d0)
                /\ (forall k, get k d = get k d0)) ->
            exists d0,
              List.In d0 ((c :: descendants c)
                          ++ List.flat_map (fun c => c :: descendants c) cs)
              /\ (forall hs, name_in hs d = name_in hs d0)
              /\ (forall k, get k d = get k d0)).
  { intros (d0 & Hin & H1 & H2). exists d0. split; [|split; assumption].
    apply List.in_or_app. now right. }
  destruct (name_in names c).
  - intros Hd. apply Hrest, IH, Hd.
  - cbn [List.app List.flat_map]. intros [<- | Hd].
    + exists c. split; [now left|]. split.
      * intros hs. apply decompose_all_name.
      * intros k. apply decompose_all_get.
    + apply List.in_app_or in Hd. destruct Hd as [Hd | Hd].
      * destruct (Hc d Hd) as (d0 & Hin & H1 & H2).
        exists d0. split; [|split; assumption].
        right. apply List.in_or_app. now left.
      * apply Hrest, IH, Hd.
Qed.

Import ContentProcessor.

(** Membership in the links of a tree. *)
Lemma extract_links_In (soup : node) (href : string) :
  List.In href (_extract_links soup)
  <-> exists a,
      List.In a (descendants soup)
      /\ name_in ["a"] a = true
      /\ get "href" a = Some href
      /\ Py.startswith href "http" = true.
Proof.
  unfold _extract_links, find_all. rewrite List.in_flat_map. split.
  - intros (a & Ha & Hin). apply List.filter_In in Ha.
    destruct Ha as [Hd Hanchor].
    unfold anchor_with_href in Hanchor.
    apply Bool.andb_true_iff in Hanchor. destruct Hanchor as [Hname _].
    destruct (get "href" a) as [h|] eqn:Hh; [|destruct Hin].
    destruct (Py.startswith h "http") eqn:Hs; [|destruct Hin].
    destruct Hin as [<- | []]. exists a. auto.
  - intros (a & Hd & Hname & Hh & Hs). exists a. split.
    + apply List.filter_In. split; [exact Hd|].
      unfold anchor_with_href. now rewrite Hname, Hh.
    + rewrite Hh, Hs. now left.
Qed.

End PruneFacts.

(** X12.  The counts and the links of the metrics are read from the
    tree that [_extract_text] has pruned: that tree holds no script,
    style, nav or footer element, so headings, images and links inside
    such elements are left out.  The headings and images counted never
    exceed those of the whole document, and every link kept is a link
    of the whole document. *)
Theorem metrics_are_read_from_the_pruned_tree (soup : Bs4.node) :
  let pruned := snd (ContentProcessor._extract_text soup) in
  List.Forall (fun d => Bs4.name_in Measure.unwanted d = false)
              (Bs4.descendants pruned)
  /\ (ContentProcessor._count_sections pruned
      <= ContentProcessor._count_sections soup)%Z
  /\ (ContentProcessor._count_images pruned
      <= ContentProcessor._count_images soup)%Z
  /\ List.incl (ContentProcessor._extract_links pruned)
               (ContentProcessor._extract_links soup)
  /\ (forall html_parser env content,
         match html_parser content,
               ContentProcessor.analyze_content html_parser env content
         with
         | Ret parsed, Ret a =>
             ContentProcessor.section_count a
             = ContentProcessor._count_sections
                 (snd (ContentProcessor._extract_text parsed))
             /\ ContentProcessor.image_count a
                = ContentProcessor._count_images
                    (snd (ContentProcessor._extract_text parsed))
         | _, _ => True
         end).
Proof.
  cbv zeta. unfold ContentProcessor._extract_text. cbn [snd].
  split; [apply PruneFacts.pruned_has_none|].
  split.
  { unfold ContentProcessor._count_sections, Bs4.find_all, Py.len.
    apply Nat2Z.inj_le, PruneFacts.pruned_count.
    intros c. apply PruneFacts.decompose_all_name. }
  split.
  { unfold ContentProcessor._count_images, Bs4.find_all, Py.len.
    apply Nat2Z.inj_le, PruneFacts.pruned_count.
    intros c. apply PruneFacts.decompose_all_name. }
  split.
  { intros href Hin. apply PruneFacts.extract_links_In in Hin.
    destruct Hin as (a & Hd & Hname & Hh & Hs).
    destruct (PruneFacts.pruned_origin _ _ _ Hd) as (a0 & Hd0 & H1 & H2).
    apply PruneFacts.extract_links_In. exists a0.
    rewrite <- H1, <- H2. auto. }
  intros html_parser env content.
  unfold ContentProcessor.analyze_content.
  destruct (html_parser content) as [parsed|e]; [|exact I].
  unfold ContentProcessor._extract_text.
  destruct (ContentProcessor._get_api_analysis env _); [|exact I].
  split; reflexivity.
Qed.

(** ** Stripping *)

Module StripFacts.

Lemma lstrip_head (s : string) :
  Py.lstrip s = ""
  \/ exists c r, Py.lstrip s = String c r /\ Py.is_space c = false.
Proof.
  induction s as [|c r IH]; [now left|].
  simpl. destruct (Py.is_space c) eqn:E; [exact IH|].
  right. exists c, r. split; [reflexivity | exact E].
Qed.

Lemma rstrip_idempotent (s : string) :
  Py.rstrip (Py.rstrip s) = Py.rstrip s.
Proof.
  induction s as [|c r IH]; [reflexivity|].
  cbn [Py.rstrip]. destruct (Py.rstrip r) as [|c' r'] eqn:E.
  - destruct (Py.is_space c) eqn:Ec; [reflexivity|].
    cbn [Py.rstrip]. now rewrite Ec.
  - cbn [Py.rstrip] in IH |- *. fold (Py.rstrip (String c' r')).
    cbn [Py.rstrip]. rewrite IH. reflexivity.
Qed.

Lemma rstrip_head (c : ascii) (r : string) :
  Py.is_space c = false ->
  exists r', Py.rstrip (String c r) = String c r'.
Proof.
  intros Hc. cbn [Py.rstrip].
  destruct (Py.rstrip r) as [|c' r']; [|now eexists].
  rewrite Hc. now eexists.
Qed.

Lemma strip_idempotent (s : string) : Py.strip (Py.strip s) = Py.strip s.
Proof.
  unfold Py.strip.
  destruct (lstrip_head s) as [-> | (c & r & -> & Hc)]; [reflexivity|].
  destruct (rstrip_head c r Hc) as [r' Hr].
  assert (Hl : Py.lstrip (Py.rstrip (String c r))
               = Py.rstrip (String c r)).
  { rewrite Hr. cbn [Py.lstrip]. now rewrite Hc. }
  rewrite Hl. apply rstrip_idempotent.
Qed.

Lemma truthy_not_empty (s : string) : Py.truthy s = true -> s <> "".
Proof. destruct s; [discriminate | discriminate]. Qed.

End StripFacts.

(** X13.  The metadata of an accepted markup is tidy: the title and
    the description carry no whitespace at either end, every
    breadcrumb is non-empty and carries none either, the record bears
    the URL of the processor and the time of the call.  The extraction
    raises only when the parser rejects the markup. *)
Theorem metadata_fields_are_trimmed
        (html_parser : string -> result Bs4.node)
        (env : AppConfig.Environ) (self_url content : string) :
  match ContentProcessor.extract_metadata
          html_parser env self_url content with
  | Ret m =>
      Measure.trimmed (ContentProcessor.title m)
      /\ Measure.trimmed (ContentProcessor.description m)
      /\ List.Forall (fun b => Measure.trimmed b /\ b <> "")
                     (ContentProcessor.breadcrumbs m)
      /\ ContentProcessor.url m = self_url
      /\ ContentProcessor.timestamp m = AppConfig.now_isoformat env
  | Raise e => html_parser content = Raise e
  end.
Proof.
  unfold ContentProcessor.extract_metadata.
  destruct (html_parser content) as [soup|e]; [|reflexivity].
  cbn [ContentProcessor.title ContentProcessor.description
         ContentProcessor.breadcrumbs ContentProcessor.url
         ContentProcessor.timestamp].
  unfold Measure.trimmed. split; [|split; [|split; [|split]]].
  - unfold ContentProcessor._extract_title.
    destruct (Bs4.find _ soup); [apply StripFacts.strip_idempotent|].
    reflexivity.
  - unfold ContentProcessor._extract_description.
    destruct (Bs4.find _ soup) as [meta|]; [|reflexivity].
    destruct (Bs4.get "content" meta);
      [apply StripFacts.strip_idempotent | reflexivity].
  - unfold ContentProcessor._extract_breadcrumbs.
    apply List.Forall_flat_map, List.Forall_forall. intros element _.
    apply List.Forall_flat_map, List.Forall_forall. intros link _.
    destruct (Py.truthy (Py.strip (Bs4.text link))) eqn:E;
      constructor; [|constructor].
    split; [apply StripFacts.strip_idempotent|].
    apply StripFacts.truthy_not_empty, E.
  - reflexivity.
  - reflexivity.
Qed.

(** X14.  [is_api_key_valid] never answers [False]: it returns [True]
    when the key is set and raises [ValueError] otherwise. *)
Theorem api_key_check_never_answers_false (env : AppConfig.Environ) :
  AppConfig.is_api_key_valid env = Ret true
  \/ exists e, AppConfig.is_api_key_valid env = Raise e.
Proof.
  unfold AppConfig.is_api_key_valid, AppConfig.get_api_key.
  destruct (AppConfig.getenv env "CONTENT_ANALYZER_API_KEY") as [k|];
    [|right; now eexists].
  destruct k as [|c k]; cbn [Py.truthy]; [right; now eexists | now left].
Qed.

(** X15.  The URLs [main] takes from a file are the stripped non-blank
    lines, in order: each is non-empty and has no whitespace at either
    end, and they come after the positional arguments. *)
Theorem file_urls_are_trimmed_and_non_empty
        (args : list string) (lines : list string) :
  Main.collect_urls args (Some lines)
  = args ++ Main.urls_from_file lines
  /\ List.Forall (fun u => Measure.trimmed u /\ u <> "")
                 (Main.urls_from_file lines)
  /\ (List.length (Main.urls_from_file lines) <= List.length lines)%nat.
Proof.
  split; [reflexivity|]. split.
  - unfold Main.urls_from_file.
    apply List.Forall_flat_map, List.Forall_forall. intros line _.
    destruct (Py.truthy (Py.strip line)) eqn:E;
      constructor; [|constructor].
    split; [apply StripFacts.strip_idempotent|].
    apply StripFacts.truthy_not_empty, E.
  - unfold Main.urls_from_file.
    induction lines as [|l lines IH]; [simpl; lia|].
    cbn [List.flat_map]. rewrite List.length_app.
    destruct (Py.truthy (Py.strip l)); simpl; lia.
Qed.

(** ** The summary of a run *)

Module SummaryFacts.

Lemma counts_add_up (results : list Main.Record_) :
  (Main.successful results + Main.failed results = Main.total results)%Z.
Proof.
  unfold Main.successful, Main.failed, Main.total, Py.len.
  induction results as [|r results IH]; [reflexivity|].
  destruct r; cbn [List.filter Main.status String.eqb Ascii.eqb
                     Bool.eqb List.length] in *; lia.
Qed.

Lemma successful_bounds (results : list Main.Record_) :
  (0 <= Main.successful results <= Main.total results)%Z.
Proof.
  unfold Main.successful, Main.total, Py.len.
  pose proof (List.filter_length_le
                (fun r => String.eqb (Main.status r) "success") results).
  lia.
Qed.

(** The rate of a non-empty result list: a percentage. *)
Lemma rate_of_non_empty (results : list Main.Record_) :
  results <> [] ->
  exists q,
    Main.success_rate results = Ret q
    /\ (0 <= q)%Q /\ (q <= inject_Z 100)%Q.
Proof.
  intros Hne. unfold Main.success_rate.
  pose proof (successful_bounds results) as [Hs0 Hst].
  assert (Ht : (0 < Main.total results)%Z).
  { unfold Main.total, Py.len. destruct results; [contradiction|].
    simpl. lia. }
  rewrite PyFacts.truediv_nonzero by lia.
  eexists. split; [reflexivity|].
  assert (Hq0 : (0 <= inject_Z (Main.successful results)
                      / inject_Z (Main.total results))%Q).
  { apply Qle_shift_div_l.
    - change 0%Q with (inject_Z 0). rewrite <- Zlt_Qlt. exact Ht.
    - rewrite Qmult_0_l. change 0%Q with (inject_Z 0).
      rewrite <- Zle_Qle. exact Hs0. }
  assert (Hq1 : (inject_Z (Main.successful results)
                 / inject_Z (Main.total results) <= 1)%Q).
  { apply Qle_shift_div_r.
    - change 0%Q with (inject_Z 0). rewrite <- Zlt_Qlt. exact Ht.
    - rewrite Qmult_1_l. rewrite <- Zle_Qle. exact Hst. }
  split.
  - apply Qmult_le_0_compat; [exact Hq0 | discriminate].
  - rewrite <- (Qmult_1_l (inject_Z 100)) at 2.
    apply Qmult_le_compat_r; [exact Hq1 | discriminate].
Qed.

(** What [Main.process_batch] returns under a positive batch size. *)
Lemma main_value (browser : string -> Browser.Page) (urls : list string)
      (batch_size : Z) (delay : Q) :
  (0 < batch_size)%Z ->
  value_of (Main.process_batch browser urls batch_size delay)
  = Ret (List.map (Observe.main_record browser) urls).
Proof.
  intros Hb.
  destruct (BatchFacts.batches_cover urls batch_size Hb)
    as [indices [Hrange Hcover]].
  unfold Main.process_batch. rewrite Hrange. unfold lift, bind.
  rewrite BatchFacts.main_loop_run, Hcover. reflexivity.
Qed.

(** What it returns under a negative one. *)
Lemma main_value_negative (browser : string -> Browser.Page)
      (urls : list string) (batch_size : Z) (delay : Q) :
  (batch_size < 0)%Z ->
  value_of (Main.process_batch browser urls batch_size delay) = Ret [].
Proof.
  intros Hb. unfold Main.process_batch, Py.range, Py.range_len.
  replace (batch_size =? 0)%Z with false by (symmetry; apply Z.eqb_neq; lia).
  replace (0 <? batch_size)%Z with false by (symmetry; apply Z.ltb_ge; lia).
  replace (Py.len urls <? 0)%Z with false
    by (symmetry; apply Z.ltb_ge; unfold Py.len; lia).
  reflexivity.
Qed.

End SummaryFacts.

(** X16.  In the summary [main] prints, the successful and the failed
    results add up to the total.  The success rate of a non-empty
    result list is a percentage between 0 and 100; on an empty result
    list its computation raises [ZeroDivisionError]. *)
Theorem summary_counts_add_up (results : list Main.Record_) :
  (Main.successful results + Main.failed results = Main.total results)%Z
  /\ match results with
     | [] => Main.success_rate results = Raise "ZeroDivisionError"
     | _ :: _ =>
         exists q,
           Main.success_rate results = Ret q
           /\ (0 <= q)%Q /\ (q <= inject_Z 100)%Q
     end.
Proof.
  split; [apply SummaryFacts.counts_add_up|].
  destruct results as [|r results]; [reflexivity|].
  apply SummaryFacts.rate_of_non_empty. discriminate.
Qed.

(** X17.  After a run over a non-empty URL list, the summary depends on
    the sign of the batch size: with a batch size of at least 1 the
    total equals the number of URLs and the success rate is computed;
    with a negative batch size the run returns no result and the
    success rate raises [ZeroDivisionError]. *)
Theorem summary_after_a_run
        (browser : string -> Browser.Page) (urls : list string)
        (batch_size : Z) (delay : Q) :
  urls <> [] ->
  batch_size <> 0%Z ->
  exists results,
    value_of (Main.process_batch browser urls batch_size delay)
    = Ret results
    /\ if (0 <? batch_size)%Z
       then Main.total results = Py.len urls
            /\ exists q, Main.success_rate results = Ret q
       else results = []
            /\ Main.success_rate results = Raise "ZeroDivisionError".
Proof.
  intros Hne Hnz.
  destruct (Z.ltb_spec 0 batch_size) as [Hpos | Hneg].
  - exists (List.map (Observe.main_record browser) urls).
    split; [apply SummaryFacts.main_value, Hpos|]. split.
    + unfold Main.total, Py.len. now rewrite List.length_map.
    + destruct (SummaryFacts.rate_of_non_empty
                  (List.map (Observe.main_record browser) urls))
        as [q [Hq _]].
      * destruct urls; [contradiction | discriminate].
      * now exists q.
  - exists []. split; [apply SummaryFacts.main_value_negative; lia|].
    split; reflexivity.
Qed.

(** X17 on five URLs and the batch size -1. *)
Lemma summary_after_a_run_witness :
  exists results,
    value_of (Main.process_batch Samples.browser40 Samples.five_urls
                                 (-1) (2 # 1))
    = Ret results
    /\ results = []
    /\ Main.success_rate results = Raise "ZeroDivisionError".
Proof.
  apply (summary_after_a_run
           Samples.browser40 Samples.five_urls (-1) (2 # 1)).
  - discriminate.
  - discriminate.
Defined.

(** ** Result records *)

Module RecordFacts.

(** The record of a URL says what its fetch returned. *)
Lemma main_record_shape (browser : string -> Browser.Page) (u : string) :
  match Observe.main_record browser u with
  | Main.Success u' c n =>
      u' = u
      /\ value_of (ContentProcessor.fetch_content (browser u))
         = Ret (Some c)
      /\ n = Py.len_str c /\ (1 <= n)%Z
  | Main.Error u' e =>
      u' = u /\ e = "No content extracted"
      /\ Py.truthy_opt
           match value_of (ContentProcessor.fetch_content (browser u)) with
           | Ret o => o
           | Raise _ => None
           end = false
  end.
Proof.
  unfold Observe.main_record, Main.process_url.
  rewrite UrlFacts.call_fetch_eq.
  destruct (UrlFacts.fetch_content_returns (browser u)) as [o Ho].
  rewrite Ho. destruct o as [[|ch c]|]; cbn; auto.
  repeat split; try reflexivity. unfold Py.len_str. simpl String.length. lia.
Qed.

Lemma Forall2_map_self {A B} (P : A -> B -> Prop) (f : A -> B)
      (l : list A) :
  (forall a, P a (f a)) -> List.Forall2 P l (List.map f l).
Proof.
  intros H. induction l as [|a l IH]; constructor; [apply H | exact IH].
Qed.

End RecordFacts.

(** X18.  Under a batch size of at least 1 every result of
    [Main.process_batch] tells what the fetch of its URL returned: a
    success record holds the fetched text, which is not empty, and its
    length, at least 1; an error record holds the message
    "No content extracted" and stands for a fetch that returned no
    text.  No other error message occurs. *)
Theorem results_report_the_fetch
        (browser : string -> Browser.Page) (urls : list string)
        (batch_size : Z) (delay : Q) :
  (0 < batch_size)%Z ->
  exists results,
    value_of (Main.process_batch browser urls batch_size delay)
    = Ret results
    /\ List.Forall2
         (fun u r =>
            match r with
            | Main.Success u' c n =>
                u' = u
                /\ value_of (ContentProcessor.fetch_content (browser u))
                   = Ret (Some c)
                /\ n = Py.len_str c /\ (1 <= n)%Z
            | Main.Error u' e =>
                u' = u /\ e = "No content extracted"
                /\ Py.truthy_opt
                     match value_of (ContentProcessor.fetch_content
                                       (browser u)) with
                     | Ret o => o
                     | Raise _ => None
                     end = false
            end)
         urls results.
Proof.
  intros Hb. exists (List.map (Observe.main_record browser) urls).
  split; [apply SummaryFacts.main_value, Hb|].
  apply RecordFacts.Forall2_map_self.
  intros u. apply RecordFacts.main_record_shape.
Qed.

(** X18 on five URLs that all lead to the page of 40 characters. *)
Lemma results_report_the_fetch_witness :
  exists results,
    value_of (Main.process_batch Samples.browser40 Samples.five_urls 2
                                 (2 # 1))
    = Ret results
    /\ List.Forall2
         (fun u r =>
            match r with
            | Main.Success u' c n =>
                u' = u
                /\ value_of (ContentProcessor.fetch_content
                               (Samples.browser40 u))
                   = Ret (Some c)
                /\ n = Py.len_str c /\ (1 <= n)%Z
            | Main.Error u' e =>
                u' = u /\ e = "No content extracted"
                /\ Py.truthy_opt
                     match value_of (ContentProcessor.fetch_content
                                       (Samples.browser40 u)) with
                     | Ret o => o
                     | Raise _ => None
                     end = false
            end)
         Samples.five_urls results.
Proof.
  apply (results_report_the_fetch
           Samples.browser40 Samples.five_urls 2 (2 # 1)).
  reflexivity.
Defined.

(** ** Sentences *)

Module PeriodFacts.

Lemma prefix_period (c : ascii) (r : string) :
  String.prefix "." (String c r) = Ascii.eqb Measure.period c.
Proof.
  cbn [String.prefix].
  destruct (Ascii.ascii_dec "." c) as [<- | Hne].
  - destruct r; reflexivity.
  - symmetry. apply Ascii.eqb_neq. exact Hne.
Qed.

(** Splitting on the period gives one fragment more than there are
    periods. *)
Lemma split_period_length (s : string) :
  forall cur,
    List.length (Py.split_from "." 0 cur s)
    = (Measure.count_char Measure.period s + 1)%nat.
Proof.
  induction s as [|c r IH]; intros cur; [reflexivity|].
  cbn [Py.split_from Measure.count_char].
  rewrite prefix_period.
  destruct (Ascii.eqb Measure.period c).
  - cbn [String.length Nat.sub List.length]. rewrite IH. lia.
  - rewrite IH. lia.
Qed.

End PeriodFacts.

(** X19.  The fallback readability score counts a sentence more than
    there are periods: for a text with at least one period it is the
    word count divided by the number of periods plus one, so a text
    that ends in its only period is scored as two sentences; for a text
    without a period it is 0, however many words it holds. *)
Theorem readability_counts_periods (text : string) :
  let words := Py.len (Py.split_ws text) in
  let periods := Z.of_nat (Measure.count_char Measure.period text) in
  Py.len (Py.split "." text) = (periods + 1)%Z
  /\ ContentProcessor._calculate_readability text
     = Ret (if (0 <? periods)%Z
            then (inject_Z words / inject_Z (periods + 1))%Q
            else 0%Q).
Proof.
  intros words periods.
  assert (Hlen : Py.len (Py.split "." text) = (periods + 1)%Z).
  { unfold Py.len, Py.split. rewrite PeriodFacts.split_period_length.
    subst periods. lia. }
  split; [exact Hlen|].
  unfold ContentProcessor._calculate_readability. rewrite Hlen.
  fold words.
  replace (1 <? periods + 1)%Z with (0 <? periods)%Z
    by (destruct (Z.ltb_spec 0 periods), (Z.ltb_spec 1 (periods + 1));
        try reflexivity; lia).
  destruct (0 <? periods)%Z; [|reflexivity].
  apply PyFacts.truediv_nonzero. subst periods. lia.
Qed.
